(** * Contact form service: the admission pipeline of the edge function

    A shallow embedding of [supabase/functions/contact/index.ts] and of the
    tables and the rate-limit function of the DDL, followed by the
    properties of the admission pipeline.

    Strings.  A JavaScript string is a sequence of code units.  The model
    uses [string], whose characters are read as the code units 0..255
    (Basic Latin and Latin-1 Supplement); on these [trim], [toLowerCase]
    and the class [\s] below are the ECMAScript ones.

    Two things the source takes from its platform are parameters of the
    deployment ([Env]): how deep a nesting of arrays [String] converts
    before the stack of the engine is used up, and the cast of a text to
    the type [inet] of the database. *)

From Stdlib Require Import ZArith NArith Ascii String List Bool Lia.
From stdpp Require Import gmap strings list fin_maps.

#[local] Set Warnings "-register-all".

Local Open Scope string_scope.
Local Open Scope Z_scope.

(** ** Strings *)

Module JsString.

(** WhiteSpace and LineTerminator code units below 256: TAB, LF, VT, FF,
    CR, SP and NBSP.  [String.prototype.trim] and the class [\s] use this
    set. *)
Definition isWhiteSpace (c : ascii) : bool :=
  match N_of_ascii c with
  | 9%N | 10%N | 11%N | 12%N | 13%N | 32%N | 160%N => true
  | _ => false
  end.

(** Lower-case mapping of one code unit: A..Z, and the Latin-1 capitals
    U+00C0..U+00DE without the multiplication sign U+00D7. *)
Definition lowerUnit (c : ascii) : ascii :=
  let n := N_of_ascii c in
  if ((65 <=? n) && (n <=? 90))%N then ascii_of_N (n + 32)
  else if ((192 <=? n) && (n <=? 222) && negb (n =? 215))%N
       then ascii_of_N (n + 32)
  else c.

Fixpoint toLowerCase (s : string) : string :=
  match s with
  | EmptyString => EmptyString
  | String c r => String (lowerUnit c) (toLowerCase r)
  end.

Fixpoint trimStart (s : string) : string :=
  match s with
  | EmptyString => EmptyString
  | String c r => if isWhiteSpace c then trimStart r else s
  end.

Fixpoint trimEnd (s : string) : string :=
  match s with
  | EmptyString => EmptyString
  | String c r =>
      match trimEnd r with
      | EmptyString => if isWhiteSpace c then EmptyString else String c EmptyString
      | t => String c t
      end
  end.

Definition trim (s : string) : string := trimEnd (trimStart s).

(** Truthiness of a string: [!s] holds of the empty string only. *)
Definition truthy (s : string) : bool :=
  match s with EmptyString => false | _ => true end.

(** [a.includes(x)] on an array of strings. *)
Fixpoint includes (a : list string) (x : string) : bool :=
  match a with
  | [] => false
  | y :: r => String.eqb y x || includes r x
  end.

(** [s.split(",")[0]]: the text before the first comma. *)
Fixpoint beforeComma (s : string) : string :=
  match s with
  | EmptyString => EmptyString
  | String c r => if Ascii.eqb c "," then EmptyString else String c (beforeComma r)
  end.

End JsString.

Import JsString.

(** ** JSON values

    What [req.json()] can resolve to.  A number is carried as the text
    [String] gives it, which is all the handler does with one. *)

Inductive json : Type :=
  | JNull
  | JBool (b : bool)
  | JNum (text : string)
  | JStr (s : string)
  | JArr (items : list json)
  | JObj (members : list (string * json)).

(** Own property of a parsed object; of two members with one name
    [JSON.parse] keeps the later. *)
Fixpoint ownProperty (members : list (string * json)) (k : string) : option json :=
  match members with
  | [] => None
  | (k', v) :: r =>
      match ownProperty r k with
      | Some x => Some x
      | None => if String.eqb k' k then Some v else None
      end
  end.

(** [Array.prototype.join] with the comma, as [String] applies it to an
    array: the elements from left to right, [null] giving the empty
    string and any other element what [convert] gives; [None] when a
    conversion throws. *)
Definition join (convert : json -> option string) : list json -> option string :=
  fix join (l : list json) : option string :=
    match l with
    | [] => Some EmptyString
    | x :: r =>
        match (match x with JNull => Some EmptyString | _ => convert x end) with
        | None => None
        | Some sx =>
            match r with
            | [] => Some sx
            | _ :: _ =>
                match join r with
                | None => None
                | Some sr => Some (sx +:+ "," +:+ sr)
                end
            end
        end
    end.

(** [String(v)]; [None] when the conversion throws.  An object with an
    own member [toString] has nothing callable to convert it (no parsed
    value is callable, and the inherited [valueOf] gives the object back):
    a TypeError; any other object is ["[object Object]"].  An array joins
    its elements with commas; [depth] is how many levels of arrays within
    arrays the stack of the engine carries, and a deeper nesting ends in
    a RangeError. *)
Fixpoint ToString (depth : nat) (v : json) {struct v} : option string :=
  match v with
  | JNull => Some "null"
  | JBool true => Some "true"
  | JBool false => Some "false"
  | JNum text => Some text
  | JStr s => Some s
  | JArr items =>
      match depth with
      | O => None
      | S d => join (ToString d) items
      end
  | JObj members =>
      match ownProperty members "toString" with
      | Some _ => None
      | None => Some "[object Object]"
      end
  end.

(** [payload.k] for the field names the handler reads.  Reading a property
    of [null] throws a TypeError ([None]); a boolean, number, string or
    array has none of these properties ([Some None] is [undefined]). *)
Definition getProperty (payload : json) (k : string) : option (option json) :=
  match payload with
  | JNull => None
  | JObj members => Some (ownProperty members k)
  | _ => Some None
  end.

(** [String(x ?? e)] with [e] the empty string; [None] when it throws. *)
Definition stringOrEmpty (depth : nat) (x : option json) : option string :=
  match x with
  | None | Some JNull => Some EmptyString
  | Some v => ToString depth v
  end.

(** ** Constants of the function *)

Definition STEALTH_MODE_ALWAYS_200 : bool := true.

Definition MAX_NAME_LEN : nat := 120.
Definition MAX_EMAIL_LEN : nat := 180.
Definition MAX_PHONE_LEN : nat := 50.
Definition MAX_COMPANY_NAME_LEN : nat := 160.
Definition MAX_MESSAGE_LEN : nat := 4000.

Definition HONEYPOT_FIELD : string := "company_website".

Definition CONTACT_TYPES : list string :=
  ["budget_request"; "general_query"; "commercial_proposal"; "other"].

(** ** Requests and responses *)

Inductive ParsedBody : Type :=
  | BodyUnparsable            (* [req.json()] rejects *)
  | BodyParsed (payload : json).

(** The header fields are [req.headers.get(...)], [None] for [null]. *)
Record Request : Type := {
  method : string;
  header_origin : option string;
  header_x_forwarded_for : option string;
  header_x_real_ip : option string;
  header_user_agent : option string;
  body : ParsedBody
}.

Inductive Body : Type :=
  | BodyEmpty                 (* no body *)
  | BodyOk                    (* the object with the one member ok: true *)
  | BodyError (code : string) (* the object with the one member error *).

Record Response : Type := {
  status : Z;
  content : Body;
  headers : list (string * string)
}.

(** What the handler's promise settles to: a response, or an exception
    that leaves the handler. *)
Inductive Outcome : Type :=
  | Responded (r : Response)
  | Threw.

(** ** Helpers *)

Definition jsonResponse (st : Z) (b : Body) (hs : list (string * string)) : Response :=
  {| status := st;
     content := b;
     headers := ("content-type", "application/json; charset=utf-8") :: hs |}.

Definition getRequestOrigin (req : Request) : string :=
  match header_origin req with Some o => o | None => EmptyString end.

Definition getClientIp (req : Request) : string :=
  match header_x_forwarded_for req with
  | Some (String c r) => trim (beforeComma (String c r))
  | _ =>
      match header_x_real_ip req with
      | Some (String c r) => trim (String c r)
      | _ => "0.0.0.0"
      end
  end.

Definition getUserAgent (req : Request) : string :=
  match header_user_agent req with Some u => u | None => EmptyString end.

(** [/^[^\s@]+@[^\s@]+\.[^\s@]+$/.test(email)].  The class [[^\s@]]
    excludes the at sign, so the first run ends at the first at sign; the
    rest must be of the class throughout and hold a dot with a character
    before it and one after it. *)
Definition emailAtom (c : ascii) : bool :=
  negb (isWhiteSpace c) && negb (Ascii.eqb c "@").

Fixpoint allAtoms (s : string) : bool :=
  match s with
  | EmptyString => true
  | String c r => emailAtom c && allAtoms r
  end.

Fixpoint dotThenMore (s : string) : bool :=
  match s with
  | EmptyString => false
  | String c r => (Ascii.eqb c "." && truthy r) || dotThenMore r
  end.

Definition innerDot (s : string) : bool :=
  match s with
  | EmptyString => false
  | String _ r => dotThenMore r
  end.

Fixpoint emailFrom (seen : bool) (s : string) : bool :=
  match s with
  | EmptyString => false
  | String c r =>
      if Ascii.eqb c "@" then seen && allAtoms r && innerDot r
      else if isWhiteSpace c then false
      else emailFrom true r
  end.

Definition isValidEmail (email : string) : bool := emailFrom false email.

Definition normalizeTenantSlug (s : string) : string := toLowerCase (trim s).

Definition corsHeaders (origin : string) : list (string * string) :=
  [ ("access-control-allow-origin", origin);
    ("access-control-allow-methods", "POST, OPTIONS");
    ("access-control-allow-headers", "content-type");
    ("access-control-max-age", "86400");
    ("vary", "Origin") ].

Definition okStealth (origin : string) : Response :=
  jsonResponse 200 BodyOk (if truthy origin then corsHeaders origin else []).

Definition normalizeContactType (depth : nat) (value : option json) : option string :=
  text ← stringOrEmpty depth value;
  let raw := toLowerCase (trim text) in
  Some (if includes CONTACT_TYPES raw then raw else "general_query").

(** The [switch] has no default arm: outside the four members the
    function returns [undefined] ([None]). *)
Definition formatContactType (ct : string) : option string :=
  if String.eqb ct "budget_request" then Some "Budget request"
  else if String.eqb ct "general_query" then Some "General query"
  else if String.eqb ct "commercial_proposal" then Some "Commercial proposal"
  else if String.eqb ct "other" then Some "Other"
  else None.

(** ** Tables *)

(** A row of [tenant_contact_settings], as the handler reads it.  The
    handler guards [allowed_origins] and [rate_limit_per_hour] against
    [null], so both are optional here. *)
Record TenantSettings : Type := {
  tenant_slug : string;
  allowed_origins : option (list string);
  slack_webhook_url : string;
  rate_limit_per_hour : option Z;
  enabled : bool
}.

(** A value of the type [inet] of the database: the family, the number
    of bits of the netmask and the address.  Two values are equal when
    the three are. *)
Record Inet : Type := {
  inet_v6 : bool;
  inet_bits : N;
  inet_address : N
}.

#[global] Instance Inet_eq_dec : EqDecision Inet.
Proof. solve_decision. Defined.

#[global] Instance Inet_countable : Countable Inet :=
  inj_countable
    (fun a => (inet_v6 a, inet_bits a, inet_address a))
    (fun t => Some {| inet_v6 := t.1.1; inet_bits := t.1.2; inet_address := t.2 |})
    (fun a => match a with Build_Inet _ _ _ => eq_refl end).

(** The primary key of [rate_limit_counters]: tenant slug, address (of
    type [inet]) and start of the hour. *)
Abbreviation CounterKey := (string * Inet * Z)%type.

(** The columns the handler writes into [form_submissions]; [id] and
    [created_at] are filled by their defaults. *)
Record Submission : Type := {
  sub_tenant_slug : string;
  sub_name : string;
  sub_email : string;
  sub_phone : option string;
  sub_company_name : option string;
  sub_contact_type : string;
  sub_message : string;
  sub_ip : option string;
  sub_user_agent : option string
}.

(** Requests the handler sends out, in the order it sends them. *)
Inductive Call : Type :=
  | SelectSettings (tenant : string)
  | RpcRateLimit (p_tenant_slug p_ip : string) (p_limit : Z)
  | InsertSubmission (row : Submission)
  | WebhookPost (url text : string).

Inductive LogLine : Type :=
  | LogInsertFailed           (* "Insert form_submissions failed:" *)
  | LogInsertThrew            (* "Insert form_submissions threw:" *)
  | LogSlackFailed            (* "Slack webhook failed:" *)
  | LogSlackError             (* "Slack webhook error:" *).

Record World : Type := {
  settings : gmap string TenantSettings;
  counters : gmap CounterKey Z;
  submissions : list Submission;
  calls : list Call;
  console : list LogLine
}.

Definition withCall (c : Call) (w : World) : World :=
  {| settings := settings w; counters := counters w;
     submissions := submissions w; calls := calls w ++ [c];
     console := console w |}.

Definition withCounters (t : gmap CounterKey Z) (w : World) : World :=
  {| settings := settings w; counters := t;
     submissions := submissions w; calls := calls w;
     console := console w |}.

Definition withSubmission (row : Submission) (w : World) : World :=
  {| settings := settings w; counters := counters w;
     submissions := submissions w ++ [row]; calls := calls w;
     console := console w |}.

Definition withLog (l : LogLine) (w : World) : World :=
  {| settings := settings w; counters := counters w;
     submissions := submissions w; calls := calls w;
     console := console w ++ [l] |}.

(** ** The rate-limit function of the DDL *)

(** Largest value of the column type [integer]. *)
Definition INT_MAX : Z := 2147483647.

(** [date_trunc('hour', now())], the clock in seconds. *)
Definition date_trunc_hour (now : Z) : Z := now - now mod 3600.

(** [check_and_increment_rate_limit]: one upsert that creates the row at 1
    or adds 1 to it, and compares the count it returns with the limit.
    [None] is an error, which leaves the table as it was: a new row whose
    tenant is not in [tenant_contact_settings] breaks the foreign key, and
    a count above [INT_MAX] is out of the range of [integer]. *)
Definition check_and_increment_rate_limit
    (tenants : gmap string TenantSettings) (now : Z)
    (p_tenant_slug : string) (p_ip : Inet) (p_limit : Z)
    (tbl : gmap CounterKey Z) : option (bool * gmap CounterKey Z) :=
  let v_bucket := date_trunc_hour now in
  let key : CounterKey := (p_tenant_slug, p_ip, v_bucket) in
  match tbl !! key with
  | None =>
      match tenants !! p_tenant_slug with
      | None => None
      | Some _ => Some (1 <=? p_limit, <[key := 1]> tbl)
      end
  | Some c =>
      let v_count := c + 1 in
      if INT_MAX <? v_count then None
      else Some (v_count <=? p_limit, <[key := v_count]> tbl)
  end.

(** ** What the function cannot decide: the deployment and the backend *)

(** The deployment: the two variables of the environment, the levels of
    nested arrays the stack of the engine carries in [String], and the
    cast of the database from a text to [inet] ([None] for a text it
    refuses). *)
Record Env : Type := {
  SUPABASE_URL : option string;
  SUPABASE_SERVICE_ROLE_KEY : option string;
  nesting_limit : nat;
  inet_in : string -> option Inet
}.

Inductive InsertOutcome : Type :=
  | InsertStored              (* the row is stored *)
  | InsertError               (* the call resolves with an error *)
  | InsertThrows              (* the call throws *).

(** The conditions one request meets: whether the settings query or the
    function call comes back with an error of the transport (a store out
    of reach), what the insert does, and the clock of the database. *)
Record Conditions : Type := {
  settings_fault : bool;
  rpc_fault : bool;
  insert_outcome : InsertOutcome;
  now : Z
}.

Definition unset (v : option string) : bool :=
  match v with
  | Some s => negb (truthy s)
  | None => true
  end.

(** ** The handler *)

(** The fields read from the payload. *)
Record Fields : Type := {
  f_tenant : string;
  f_name : string;
  f_email : string;
  f_phone : string;
  f_company_name : string;
  f_contact_type : string;
  f_message : string;
  f_honeypot : string
}.

(** The eight reads of the payload and their conversions, in the order
    of the source; [None] when a read or a conversion throws. *)
Definition extractFields (depth : nat) (payload : json) : option Fields :=
  vtenant ← getProperty payload "tenant";
  tenant ← stringOrEmpty depth vtenant;
  vname ← getProperty payload "name";
  name ← stringOrEmpty depth vname;
  vemail ← getProperty payload "email";
  email ← stringOrEmpty depth vemail;
  vphone ← getProperty payload "phone";
  phone ← stringOrEmpty depth vphone;
  vcompany_name ← getProperty payload "company_name";
  company_name ← stringOrEmpty depth vcompany_name;
  vcontact_type ← getProperty payload "contact_type";
  contact_type ← normalizeContactType depth vcontact_type;
  vmessage ← getProperty payload "message";
  message ← stringOrEmpty depth vmessage;
  vhoneypot ← getProperty payload HONEYPOT_FIELD;
  honeypot ← stringOrEmpty depth vhoneypot;
  Some {| f_tenant := normalizeTenantSlug tenant;
          f_name := trim name;
          f_email := toLowerCase (trim email);
          f_phone := trim phone;
          f_company_name := trim company_name;
          f_contact_type := contact_type;
          f_message := trim message;
          f_honeypot := trim honeypot |}.

(** [s || null]. *)
Definition orNull (s : string) : option string :=
  if truthy s then Some s else None.

Definition submissionRow (f : Fields) (ip user_agent : string) : Submission :=
  {| sub_tenant_slug := f_tenant f;
     sub_name := f_name f;
     sub_email := f_email f;
     sub_phone := orNull (f_phone f);
     sub_company_name := orNull (f_company_name f);
     sub_contact_type := f_contact_type f;
     sub_message := f_message f;
     sub_ip := if String.eqb ip "0.0.0.0" then None else Some ip;
     sub_user_agent := orNull user_agent |}.

(** The first field that fails the basic validation, as its error code. *)
Definition validate (f : Fields) : option string :=
  if negb (truthy (f_tenant f)) || (64 <? String.length (f_tenant f))%nat
  then Some "invalid_tenant"
  else if negb (truthy (f_name f)) || (MAX_NAME_LEN <? String.length (f_name f))%nat
  then Some "invalid_name"
  else if negb (truthy (f_email f))
          || (MAX_EMAIL_LEN <? String.length (f_email f))%nat
          || negb (isValidEmail (f_email f))
  then Some "invalid_email"
  else if (MAX_PHONE_LEN <? String.length (f_phone f))%nat
  then Some "invalid_phone"
  else if (MAX_COMPANY_NAME_LEN <? String.length (f_company_name f))%nat
  then Some "invalid_company_name"
  else if negb (truthy (f_message f))
          || (MAX_MESSAGE_LEN <? String.length (f_message f))%nat
  then Some "invalid_message"
  else None.

(** The settings query: the row of the tenant, [None] for no row or for
    an error (the handler treats the two alike). *)
Definition loadSettings (cond : Conditions) (tenant : string) (w : World)
  : option TenantSettings * World :=
  let w1 := withCall (SelectSettings tenant) w in
  if settings_fault cond then (None, w1) else (settings w !! tenant, w1).

(** The call of the rate-limit function; the result is [allowed === true]
    without an error.  The address goes out as a text and is cast to
    [inet] on the way in; a text the cast refuses is an error. *)
Definition rpcRateLimit (env : Env) (cond : Conditions) (tenant ip : string)
    (limit : Z) (w : World) : bool * World :=
  let w1 := withCall (RpcRateLimit tenant ip limit) w in
  if rpc_fault cond then (false, w1)
  else match inet_in env ip with
       | None => (false, w1)
       | Some p_ip =>
           match check_and_increment_rate_limit
                   (settings w) (now cond) tenant p_ip limit (counters w) with
           | None => (false, w1)
           | Some (allowed, tbl) => (allowed, withCounters tbl w1)
           end
       end.

(** The insert of the audit row inside its [try]. *)
Definition insertSubmission (cond : Conditions) (row : Submission) (w : World) : World :=
  let w1 := withCall (InsertSubmission row) w in
  match insert_outcome cond with
  | InsertStored => withSubmission row w1
  | InsertError => withLog LogInsertFailed w1
  | InsertThrows => withLog LogInsertThrew w1
  end.

(** [postToSlack]: one POST to the webhook; [delivered] is whether the
    answer is a 2xx. *)
Definition postToSlack (delivered : option bool) (webhookUrl text : string)
    (w : World) : bool * World :=
  let w1 := withCall (WebhookPost webhookUrl text) w in
  match delivered with
  | Some true => (true, w1)
  | Some false => (false, withLog LogSlackFailed w1)
  | None => (false, withLog LogSlackError w1)
  end.

(** The handler from the honeypot check on, once the fields are read. *)
Definition admission (stealth : bool) (env : Env) (cond : Conditions)
    (req : Request) (f : Fields) (w : World) : Outcome * World :=
  let origin := getRequestOrigin req in
  let invalid (code : string) : Response :=
    if stealth then okStealth origin else jsonResponse 400 (BodyError code) [] in
  if (0 <? String.length (f_honeypot f))%nat then (Responded (okStealth origin), w)
  else
  match validate f with
  | Some code => (Responded (invalid code), w)
  | None =>
  let '(found, w1) := loadSettings cond (f_tenant f) w in
  match found with
  | None => (Responded (okStealth origin), w1)
  | Some st =>
  if negb (enabled st) then (Responded (okStealth origin), w1)
  else
  let allowedOrigins := default [] (allowed_origins st) in
  if negb (truthy origin) || negb (includes allowedOrigins origin) then
    (Responded (if stealth then okStealth origin
                else jsonResponse 403 (BodyError "forbidden_origin")
                                  (corsHeaders origin)), w1)
  else
  let ip := getClientIp req in
  let user_agent := getUserAgent req in
  let '(allowed, w2) :=
    rpcRateLimit env cond (f_tenant f) ip (default 10 (rate_limit_per_hour st)) w1 in
  if negb allowed then
    (Responded (if stealth then okStealth origin
                else jsonResponse 429 (BodyError "rate_limited")
                                  (corsHeaders origin)), w2)
  else
  let w3 := insertSubmission cond (submissionRow f ip user_agent) w2 in
  (* the call of postToSlack is commented out in the source *)
  (Responded (jsonResponse 200 BodyOk (corsHeaders origin)), w3)
  end end.

(** The function served, with the stealth switch as a parameter: the
    method, the deployment and the body, then [admission].  The client of
    the database is taken to be built without an exception from the two
    variables of a deployment that has them, and its calls to resolve
    with a result or an error, as the library does. *)
Definition handle (stealth : bool) (env : Env) (cond : Conditions)
    (req : Request) (w : World) : Outcome * World :=
  let origin := getRequestOrigin req in
  if String.eqb (method req) "OPTIONS" then
    (Responded {| status := 204; content := BodyEmpty;
                  headers := corsHeaders origin |}, w)
  else if negb (String.eqb (method req) "POST") then
    (Responded (jsonResponse 405 (BodyError "method_not_allowed") []), w)
  else if unset (SUPABASE_URL env) || unset (SUPABASE_SERVICE_ROLE_KEY env) then
    (Responded (jsonResponse 500 (BodyError "server_misconfigured") []), w)
  else
  match body req with
  | BodyUnparsable =>
      (Responded (if stealth then okStealth origin
                  else jsonResponse 400 (BodyError "invalid_json") []), w)
  | BodyParsed payload =>
      match extractFields (nesting_limit env) payload with
      | None => (Threw, w)
      | Some f => admission stealth env cond req f w
      end
  end.

(** The function as deployed. *)
Definition handler : Env -> Conditions -> Request -> World -> Outcome * World :=
  handle STEALTH_MODE_ALWAYS_200.

(** ** Runs and sample data used in the statements *)

(** The request [req] with another parsed payload. *)
Definition withPayload (req : Request) (payload : json) : Request :=
  {| method := method req;
     header_origin := header_origin req;
     header_x_forwarded_for := header_x_forwarded_for req;
     header_x_real_ip := header_x_real_ip req;
     header_user_agent := header_user_agent req;
     body := BodyParsed payload |}.

(** The value [v] inside [n] levels of arrays of one element. *)
Fixpoint nested (n : nat) (v : json) : json :=
  match n with
  | O => v
  | S m => JArr [nested m v]
  end.

(** A payload object whose [tenant] member is the string [s]. *)
Definition namingTenant (others : list (string * json)) (s : string) : json :=
  JObj (others ++ [("tenant", JStr s)]).

(** One attempt at the rate limiter, and [n] attempts in a row with the
    same arguments; an attempt that ends in an error leaves the table as
    it was and yields [None]. *)
Definition attempt (tenants : gmap string TenantSettings) (now : Z)
    (tenant : string) (ip : Inet) (limit : Z) (tbl : gmap CounterKey Z)
  : option bool * gmap CounterKey Z :=
  match check_and_increment_rate_limit tenants now tenant ip limit tbl with
  | None => (None, tbl)
  | Some (allowed, tbl') => (Some allowed, tbl')
  end.

Fixpoint attempts (n : nat) (tenants : gmap string TenantSettings) (now : Z)
    (tenant : string) (ip : Inet) (limit : Z) (tbl : gmap CounterKey Z)
  : list (option bool) * gmap CounterKey Z :=
  match n with
  | O => ([], tbl)
  | S m =>
      let '(r, tbl1) := attempt tenants now tenant ip limit tbl in
      let '(rs, tbl2) := attempts m tenants now tenant ip limit tbl1 in
      (r :: rs, tbl2)
  end.

(** Attempts in a row with the same arguments, one at each of the clock
    values [nows]. *)
Fixpoint attemptsAt (nows : list Z) (tenants : gmap string TenantSettings)
    (tenant : string) (ip : Inet) (limit : Z) (tbl : gmap CounterKey Z)
  : list (option bool) * gmap CounterKey Z :=
  match nows with
  | [] => ([], tbl)
  | now :: later =>
      let '(r, tbl1) := attempt tenants now tenant ip limit tbl in
      let '(rs, tbl2) := attemptsAt later tenants tenant ip limit tbl1 in
      (r :: rs, tbl2)
  end.

(** The clock value [now] lies in the hour that starts at [hour]. *)
Definition withinHour (hour now : Z) : Prop :=
  hour <= now < hour + 3600.

(** The number of attempts that returned [true]. *)
Definition admittedCount (rs : list (option bool)) : nat :=
  List.length (List.filter (fun r => match r with Some true => true | _ => false end) rs).

(** The count of a key, 0 when it has no row. *)
Definition countOf (tbl : gmap CounterKey Z) (key : CounterKey) : Z :=
  default 0 (tbl !! key).

(** The same request handled [n] times in a row. *)
Fixpoint serveTimes (n : nat) (env : Env) (cond : Conditions) (req : Request)
    (w : World) : list Outcome * World :=
  match n with
  | O => ([], w)
  | S m =>
      let '(out, w1) := handler env cond req w in
      let '(outs, w2) := serveTimes m env cond req w1 in
      (out :: outs, w2)
  end.



(** Every code unit of [s] satisfies [p]. *)
Fixpoint allChars (p : ascii -> bool) (s : string) : bool :=
  match s with
  | EmptyString => true
  | String c r => p c && allChars p r
  end.

(** [s] consists of white space only. *)
Definition allWhite (s : string) : bool := allChars isWhiteSpace s.

Definition startsWithWhiteSpace (s : string) : bool :=
  match s with
  | EmptyString => false
  | String c _ => isWhiteSpace c
  end.

Fixpoint endsWithWhiteSpace (s : string) : bool :=
  match s with
  | EmptyString => false
  | String c EmptyString => isWhiteSpace c
  | String _ r => endsWithWhiteSpace r
  end.

Definition notComma (c : ascii) : bool := negb (Ascii.eqb c ",").

(** The value of the header [k] of a response, the first when there are
    several. *)
Fixpoint headerOf (hs : list (string * string)) (k : string) : option string :=
  match hs with
  | [] => None
  | (k', v) :: r => if String.eqb k' k then Some v else headerOf r k
  end.

(** A payload that parses but is neither an object nor [null]. *)
Definition nonObject (p : json) : Prop :=
  match p with
  | JBool _ | JNum _ | JStr _ | JArr _ => True
  | JNull | JObj _ => False
  end.

(** The parsed values that [String] does not convert, with [depth] levels
    of arrays carried: an object with an own member [toString], an array
    when no level is left, and an array with such an element. *)
Inductive throwsOnString : nat -> json -> Prop :=
  | throws_own_toString (depth : nat) (members : list (string * json)) (x : json) :
      ownProperty members "toString" = Some x ->
      throwsOnString depth (JObj members)
  | throws_too_deep (items : list json) :
      throwsOnString 0 (JArr items)
  | throws_element (depth : nat) (items : list json) (x : json) :
      In x items ->
      throwsOnString depth x ->
      throwsOnString (S depth) (JArr items).

(** The member names the handler reads. *)
Definition FIELD_NAMES : list string :=
  ["tenant"; "name"; "email"; "phone"; "company_name"; "contact_type";
   "message"; HONEYPOT_FIELD].

(** How often the code unit [c] occurs in [s]. *)
Fixpoint countChar (c : ascii) (s : string) : nat :=
  match s with
  | EmptyString => O
  | String d r => ((if Ascii.eqb d c then 1 else 0) + countChar c r)%nat
  end.

Definition notWhiteSpace (c : ascii) : bool := negb (isWhiteSpace c).

(** A header that [if (h)] takes as missing: absent or empty. *)
Definition blankHeader (h : option string) : Prop :=
  h = None \/ h = Some EmptyString.

(** A POST to a configured deployment whose payload gives the fields [f]. *)
Definition posted (env : Env) (req : Request) (f : Fields) : Prop :=
  method req = "POST"
  /\ unset (SUPABASE_URL env) = false
  /\ unset (SUPABASE_SERVICE_ROLE_KEY env) = false
  /\ exists payload,
       body req = BodyParsed payload
       /\ extractFields (nesting_limit env) payload = Some f.

(** A request that passes every admission check: an empty honeypot, valid
    fields, an enabled tenant [st], an allowed origin, and a rate-limit
    call that answers true and leaves the counters [tbl]. *)
Definition passesChecks (env : Env) (cond : Conditions) (req : Request)
    (w : World) (f : Fields) (st : TenantSettings) (tbl : gmap CounterKey Z) : Prop :=
  posted env req f
  /\ f_honeypot f = EmptyString
  /\ validate f = None
  /\ settings_fault cond = false
  /\ settings w !! f_tenant f = Some st
  /\ enabled st = true
  /\ truthy (getRequestOrigin req) = true
  /\ includes (default [] (allowed_origins st)) (getRequestOrigin req) = true
  /\ rpc_fault cond = false
  /\ exists p_ip,
       inet_in env (getClientIp req) = Some p_ip
       /\ check_and_increment_rate_limit (settings w) (now cond) (f_tenant f)
            p_ip (default 10 (rate_limit_per_hour st)) (counters w)
          = Some (true, tbl).

(** No enabled row comes back: the tenant has no row, the row is
    disabled, or the query fails. *)
Definition unresolved (cond : Conditions) (w : World) (tenant : string) : Prop :=
  settings_fault cond = true
  \/ settings w !! tenant = None
  \/ exists st, settings w !! tenant = Some st /\ enabled st = false.

(** The world an admitted request leaves. *)
Definition admittedWorld (cond : Conditions) (req : Request) (w : World)
    (f : Fields) (st : TenantSettings) (tbl : gmap CounterKey Z) : World :=
  insertSubmission cond
    (submissionRow f (getClientIp req) (getUserAgent req))
    (withCounters tbl
       (withCall (RpcRateLimit (f_tenant f) (getClientIp req)
                               (default 10 (rate_limit_per_hour st)))
          (withCall (SelectSettings (f_tenant f)) w))).

(** The request comes to the origin check with the settings row [st]. *)
Definition reachesOriginCheck (cond : Conditions) (w : World) (f : Fields)
    (st : TenantSettings) : Prop :=
  f_honeypot f = EmptyString
  /\ validate f = None
  /\ settings_fault cond = false
  /\ settings w !! f_tenant f = Some st
  /\ enabled st = true.

Definition originAllowed (req : Request) (st : TenantSettings) : Prop :=
  getRequestOrigin req <> EmptyString
  /\ In (getRequestOrigin req) (default [] (allowed_origins st)).

(** Why a request ends where it does. *)
Inductive Reason : Type :=
  | Honeypot
  | InvalidField (code : string)
  | TenantUnresolved
  | OriginForbidden
  | LimiterError
  | RateLimited
  | PassedAll.

(** The ways [admission] ends, one for each [return] of the source from
    the honeypot check on (an error of the rate-limit call, a refused
    cast of the address among them, apart from its answer false): the
    reason, the response and the world left. *)
Inductive ends (stealth : bool) (env : Env) (cond : Conditions)
    (req : Request) (f : Fields) (w : World)
  : Reason -> Outcome -> World -> Prop :=
  | ends_honeypot :
      f_honeypot f <> EmptyString ->
      ends stealth env cond req f w Honeypot
        (Responded (okStealth (getRequestOrigin req))) w
  | ends_invalid (code : string) :
      f_honeypot f = EmptyString ->
      validate f = Some code ->
      ends stealth env cond req f w (InvalidField code)
        (Responded (if stealth then okStealth (getRequestOrigin req)
                    else jsonResponse 400 (BodyError code) []))
        w
  | ends_unresolved :
      f_honeypot f = EmptyString ->
      validate f = None ->
      unresolved cond w (f_tenant f) ->
      ends stealth env cond req f w TenantUnresolved
        (Responded (okStealth (getRequestOrigin req)))
        (withCall (SelectSettings (f_tenant f)) w)
  | ends_forbidden (st : TenantSettings) :
      reachesOriginCheck cond w f st ->
      ~ originAllowed req st ->
      ends stealth env cond req f w OriginForbidden
        (Responded (if stealth then okStealth (getRequestOrigin req)
                    else jsonResponse 403 (BodyError "forbidden_origin")
                                      (corsHeaders (getRequestOrigin req))))
        (withCall (SelectSettings (f_tenant f)) w)
  | ends_limiter_error (st : TenantSettings) :
      reachesOriginCheck cond w f st ->
      originAllowed req st ->
      rpc_fault cond = true
      \/ inet_in env (getClientIp req) = None
      \/ (exists p_ip,
            inet_in env (getClientIp req) = Some p_ip
            /\ check_and_increment_rate_limit (settings w) (now cond) (f_tenant f)
                 p_ip (default 10 (rate_limit_per_hour st)) (counters w)
               = None) ->
      ends stealth env cond req f w LimiterError
        (Responded (if stealth then okStealth (getRequestOrigin req)
                    else jsonResponse 429 (BodyError "rate_limited")
                                      (corsHeaders (getRequestOrigin req))))
        (withCall (RpcRateLimit (f_tenant f) (getClientIp req)
                                (default 10 (rate_limit_per_hour st)))
           (withCall (SelectSettings (f_tenant f)) w))
  | ends_rate_limited (st : TenantSettings) (p_ip : Inet)
      (tbl : gmap CounterKey Z) :
      reachesOriginCheck cond w f st ->
      originAllowed req st ->
      rpc_fault cond = false ->
      inet_in env (getClientIp req) = Some p_ip ->
      check_and_increment_rate_limit (settings w) (now cond) (f_tenant f)
        p_ip (default 10 (rate_limit_per_hour st)) (counters w)
      = Some (false, tbl) ->
      ends stealth env cond req f w RateLimited
        (Responded (if stealth then okStealth (getRequestOrigin req)
                    else jsonResponse 429 (BodyError "rate_limited")
                                      (corsHeaders (getRequestOrigin req))))
        (withCounters tbl
           (withCall (RpcRateLimit (f_tenant f) (getClientIp req)
                                   (default 10 (rate_limit_per_hour st)))
              (withCall (SelectSettings (f_tenant f)) w)))
  | ends_admitted (st : TenantSettings) (p_ip : Inet)
      (tbl : gmap CounterKey Z) :
      reachesOriginCheck cond w f st ->
      originAllowed req st ->
      rpc_fault cond = false ->
      inet_in env (getClientIp req) = Some p_ip ->
      check_and_increment_rate_limit (settings w) (now cond) (f_tenant f)
        p_ip (default 10 (rate_limit_per_hour st)) (counters w)
      = Some (true, tbl) ->
      ends stealth env cond req f w PassedAll
        (Responded (jsonResponse 200 BodyOk (corsHeaders (getRequestOrigin req))))
        (admittedWorld cond req w f st tbl).

(** The ways the handler settles: before the fields are read, one for
    each [return] and for the exception of the source; after, the ways
    [admission] ends. *)
Inductive settles (stealth : bool) (env : Env) (cond : Conditions)
    (req : Request) (w : World) : Outcome -> World -> Prop :=
  | settles_preflight :
      method req = "OPTIONS" ->
      settles stealth env cond req w
        (Responded {| status := 204; content := BodyEmpty;
                      headers := corsHeaders (getRequestOrigin req) |}) w
  | settles_method :
      method req <> "OPTIONS" ->
      method req <> "POST" ->
      settles stealth env cond req w
        (Responded (jsonResponse 405 (BodyError "method_not_allowed") [])) w
  | settles_misconfigured :
      method req = "POST" ->
      unset (SUPABASE_URL env) = true \/ unset (SUPABASE_SERVICE_ROLE_KEY env) = true ->
      settles stealth env cond req w
        (Responded (jsonResponse 500 (BodyError "server_misconfigured") [])) w
  | settles_unparsable :
      method req = "POST" ->
      unset (SUPABASE_URL env) = false ->
      unset (SUPABASE_SERVICE_ROLE_KEY env) = false ->
      body req = BodyUnparsable ->
      settles stealth env cond req w
        (Responded (if stealth then okStealth (getRequestOrigin req)
                    else jsonResponse 400 (BodyError "invalid_json") [])) w
  | settles_throws (payload : json) :
      method req = "POST" ->
      unset (SUPABASE_URL env) = false ->
      unset (SUPABASE_SERVICE_ROLE_KEY env) = false ->
      body req = BodyParsed payload ->
      extractFields (nesting_limit env) payload = None ->
      settles stealth env cond req w Threw w
  | settles_pipeline (f : Fields) (why : Reason) (out : Outcome) (w' : World) :
      posted env req f ->
      ends stealth env cond req f w why out w' ->
      settles stealth env cond req w out w'.

(** What one request may do to the world: the settings stay, the calls
    grow by a prefix of settings query, rate-limit call and insert, at
    most one row and one log line are added, and at most one counter goes
    up, by one. *)
Definition boundedEffects (w w' : World) : Prop :=
  settings w' = settings w
  /\ (exists new,
        calls w' = (calls w ++ new)%list
        /\ (new = []
            \/ (exists t, new = [SelectSettings t])
            \/ (exists t ip lim, new = [SelectSettings t; RpcRateLimit t ip lim])
            \/ (exists t ip lim row,
                  new = [SelectSettings t; RpcRateLimit t ip lim;
                         InsertSubmission row])))
  /\ (submissions w' = submissions w
      \/ exists row, submissions w' = (submissions w ++ [row])%list)
  /\ (counters w' = counters w
      \/ exists key, counters w'
                     = <[key := countOf (counters w) key + 1]> (counters w))
  /\ (console w' = console w
      \/ exists line, console w' = (console w ++ [line])%list).

Definition isWebhookPost (c : Call) : bool :=
  match c with WebhookPost _ _ => true | _ => false end.

(** The notification attempts among the calls. *)
Definition notifications (w : World) : list Call :=
  List.filter isWebhookPost (calls w).

(** The conditions [cond] with another outcome of the insert. *)
Definition withInsertOutcome (o : InsertOutcome) (cond : Conditions) : Conditions :=
  {| settings_fault := settings_fault cond;
     rpc_fault := rpc_fault cond;
     insert_outcome := o;
     now := now cond |}.

(** The seed row of the DDL and a request like the one of the README. *)
Definition cfobras : TenantSettings :=
  {| tenant_slug := "cfobras";
     allowed_origins := Some ["https://cf-obras-civiles-web-kplb.bolt.host"];
     slack_webhook_url := "https://hooks.slack.com/services/XXX/YYY/ZZZ";
     rate_limit_per_hour := Some 10;
     enabled := true |}.

Definition seeded : World :=
  {| settings := {[ "cfobras" := cfobras ]};
     counters := ∅;
     submissions := [];
     calls := [];
     console := [] |}.

(** A cast for the sample deployment, used at the addresses of the
    examples: the dotted quads of IPv4 with an optional netmask, every
    other text refused (the cast of PostgreSQL takes more, the texts of
    IPv6 among them). *)
Definition digitValue (c : ascii) : option N :=
  let n := N_of_ascii c in
  if ((48 <=? n) && (n <=? 57))%N then Some (n - 48)%N else None.

Fixpoint decimalFrom (acc : N) (s : string) : option N :=
  match s with
  | EmptyString => Some acc
  | String c r =>
      match digitValue c with
      | Some d => decimalFrom (10 * acc + d)%N r
      | None => None
      end
  end.

Definition decimal (s : string) : option N :=
  match s with
  | EmptyString => None
  | _ => decimalFrom 0%N s
  end.

Fixpoint splitOn (sep : ascii) (s : string) : list string :=
  match s with
  | EmptyString => [EmptyString]
  | String c r =>
      if Ascii.eqb c sep then EmptyString :: splitOn sep r
      else match splitOn sep r with
           | [] => [String c EmptyString]
           | first :: more => String c first :: more
           end
  end.

Definition dottedQuad (bits : N) (s : string) : option Inet :=
  match List.map decimal (splitOn "." s) with
  | [Some a; Some b; Some c; Some d] =>
      if ((a <=? 255) && (b <=? 255) && (c <=? 255) && (d <=? 255) && (bits <=? 32))%N
      then Some {| inet_v6 := false;
                   inet_bits := bits;
                   inet_address := (((a * 256 + b) * 256 + c) * 256 + d)%N |}
      else None
  | _ => None
  end.

Definition ipv4_in (s : string) : option Inet :=
  match splitOn "/" s with
  | [address] => dottedQuad 32%N address
  | [address; bits] =>
      match decimal bits with
      | Some n => dottedQuad n address
      | None => None
      end
  | _ => None
  end.

(** The address [0.0.0.0] as a value of [inet]. *)
Definition anyAddress : Inet :=
  {| inet_v6 := false; inet_bits := 32%N; inet_address := 0%N |}.

Definition deployed : Env :=
  {| SUPABASE_URL := Some "https://project.supabase.co";
     SUPABASE_SERVICE_ROLE_KEY := Some "service-role-key";
     nesting_limit := 1000;
     inet_in := ipv4_in |}.

Definition healthy : Conditions :=
  {| settings_fault := false;
     rpc_fault := false;
     insert_outcome := InsertStored;
     now := 1700000000 |}.


(** Twelve moments of the hour that starts at 1699999200. *)
Definition twelveMoments : list Z :=
  [1699999200; 1699999201; 1699999500; 1700000000; 1700000000; 1700000400;
   1700000700; 1700001000; 1700001300; 1700001600; 1700002000; 1700002799].

Definition testPayload (tenant : string) (honeypot : json) : json :=
  JObj [ ("tenant", JStr tenant);
         ("name", JStr "Test User");
         ("email", JStr "test@example.com");
         ("company_name", JStr "Test Corp");
         ("contact_type", JStr "general_query");
         ("message", JStr "Este es un mensaje de prueba con nuevos campos");
         ("company_website", honeypot) ].

Definition postOf (origin : option string) (payload : ParsedBody) : Request :=
  {| method := "POST";
     header_origin := origin;
     header_x_forwarded_for := None;
     header_x_real_ip := None;
     header_user_agent := None;
     body := payload |}.

Definition testRequest (honeypot : json) : Request :=
  postOf (Some "https://cf-obras-civiles-web-kplb.bolt.host")
         (BodyParsed (testPayload "cfobras" honeypot)).

Definition testRequestFor (tenant : string) : Request :=
  postOf (Some "https://cf-obras-civiles-web-kplb.bolt.host")
         (BodyParsed (testPayload tenant (JStr EmptyString))).

Definition testFieldsFor (tenant : string) : Fields :=
  {| f_tenant := tenant;
     f_name := "Test User";
     f_email := "test@example.com";
     f_phone := EmptyString;
     f_company_name := "Test Corp";
     f_contact_type := "general_query";
     f_message := "Este es un mensaje de prueba con nuevos campos";
     f_honeypot := EmptyString |}.

Definition testFields : Fields := testFieldsFor "cfobras".

Definition testRow : Submission :=
  {| sub_tenant_slug := "cfobras";
     sub_name := "Test User";
     sub_email := "test@example.com";
     sub_phone := None;
     sub_company_name := Some "Test Corp";
     sub_contact_type := "general_query";
     sub_message := "Este es un mensaje de prueba con nuevos campos";
     sub_ip := None;
     sub_user_agent := None |}.

(** ** Facts about [trim] and [toLowerCase] *)

Lemma isWhiteSpace_lowerUnit (c : ascii) :
  isWhiteSpace (lowerUnit c) = isWhiteSpace c.
Proof.
  destruct c as [[] [] [] [] [] [] [] []]; reflexivity.
Qed.

Lemma lowerUnit_idem (c : ascii) : lowerUnit (lowerUnit c) = lowerUnit c.
Proof.
  destruct c as [[] [] [] [] [] [] [] []]; reflexivity.
Qed.

Lemma toLowerCase_idem (s : string) :
  toLowerCase (toLowerCase s) = toLowerCase s.
Proof.
  induction s as [|c r IH]; simpl; [reflexivity|].
  now rewrite lowerUnit_idem, IH.
Qed.

Lemma toLowerCase_trimStart (s : string) :
  toLowerCase (trimStart s) = trimStart (toLowerCase s).
Proof.
  induction s as [|c r IH]; simpl; [reflexivity|].
  rewrite isWhiteSpace_lowerUnit.
  destruct (isWhiteSpace c); [exact IH | reflexivity].
Qed.

Lemma toLowerCase_trimEnd (s : string) :
  toLowerCase (trimEnd s) = trimEnd (toLowerCase s).
Proof.
  induction s as [|c r IH]; simpl; [reflexivity|].
  rewrite <- IH, isWhiteSpace_lowerUnit.
  destruct (trimEnd r) as [|d t]; simpl.
  - destruct (isWhiteSpace c); reflexivity.
  - reflexivity.
Qed.

Lemma toLowerCase_trim (s : string) :
  toLowerCase (trim s) = trim (toLowerCase s).
Proof.
  unfold trim. now rewrite toLowerCase_trimEnd, toLowerCase_trimStart.
Qed.

Lemma trimEnd_idem (s : string) : trimEnd (trimEnd s) = trimEnd s.
Proof.
  induction s as [|c r IH]; simpl; [reflexivity|].
  destruct (trimEnd r) as [|d t] eqn:E.
  - destruct (isWhiteSpace c) eqn:W; simpl; [reflexivity|]. now rewrite W.
  - simpl in IH |- *. now rewrite IH.
Qed.

(** A string that does not start with white space still does not after
    [trimEnd], unless nothing is left of it. *)
Lemma trimStart_trimEnd (s : string) :
  trimStart (trimEnd (trimStart s)) = trimEnd (trimStart s).
Proof.
  induction s as [|c r IH]; simpl; [reflexivity|].
  destruct (isWhiteSpace c) eqn:W; [exact IH|].
  simpl. destruct (trimEnd r) as [|d t]; rewrite ?W; simpl; now rewrite W.
Qed.

Lemma trim_idem (s : string) : trim (trim s) = trim s.
Proof.
  unfold trim. now rewrite trimStart_trimEnd, trimEnd_idem.
Qed.

(** ** Facts about the helpers *)

Lemma truthy_true (s : string) : truthy s = true <-> s <> EmptyString.
Proof. destruct s; simpl; split; congruence. Qed.

Lemma truthy_false (s : string) : truthy s = false <-> s = EmptyString.
Proof. destruct s; simpl; split; congruence. Qed.

Lemma length_pos_truthy (s : string) :
  (0 <? String.length s)%nat = truthy s.
Proof. destruct s; reflexivity. Qed.

(** [includes] is membership under equality of strings. *)
Lemma includes_In (a : list string) (x : string) :
  includes a x = true <-> In x a.
Proof.
  induction a as [|y r IH]; simpl.
  - split; [discriminate | tauto].
  - rewrite orb_true_iff, IH, String.eqb_eq. tauto.
Qed.

Lemma includes_not_In (a : list string) (x : string) :
  includes a x = false <-> ~ In x a.
Proof.
  rewrite <- includes_In. destruct (includes a x); split; congruence.
Qed.

Lemma ownProperty_last (m : list (string * json)) (k : string) (v : json) :
  ownProperty (m ++ [(k, v)]) k = Some v.
Proof.
  induction m as [|[k' v'] r IH]; simpl.
  - now rewrite String.eqb_refl.
  - now rewrite IH.
Qed.

Lemma ownProperty_last_other (m : list (string * json)) (k k' : string) (v : json) :
  String.eqb k k' = false ->
  ownProperty (m ++ [(k, v)]) k' = ownProperty m k'.
Proof.
  intros Hk. induction m as [|[k0 v0] r IH]; simpl.
  - now rewrite Hk.
  - now rewrite IH.
Qed.

Lemma normalizeTenantSlug_idem (s : string) :
  normalizeTenantSlug (normalizeTenantSlug s) = normalizeTenantSlug s.
Proof.
  unfold normalizeTenantSlug.
  now rewrite <- toLowerCase_trim, toLowerCase_idem, trim_idem.
Qed.

Lemma normalizeTenantSlug_normal_form (s : string) :
  normalizeTenantSlug (trim (toLowerCase s)) = normalizeTenantSlug s.
Proof.
  unfold normalizeTenantSlug.
  now rewrite trim_idem, <- toLowerCase_trim, toLowerCase_idem.
Qed.

(** The fields depend on the payload through the eight members only. *)
Lemma extractFields_ext (depth : nat) (p1 p2 : json) :
  (forall k, In k FIELD_NAMES -> getProperty p1 k = getProperty p2 k) ->
  extractFields depth p1 = extractFields depth p2.
Proof.
  intros H. unfold extractFields.
  rewrite (H "tenant"), (H "name"), (H "email"), (H "phone"),
    (H "company_name"), (H "contact_type"), (H "message"), (H HONEYPOT_FIELD)
    by (unfold FIELD_NAMES; simpl; auto 10).
  reflexivity.
Qed.

Lemma extractFields_namingTenant (depth : nat) (others : list (string * json))
    (s s' : string) :
  normalizeTenantSlug s = normalizeTenantSlug s' ->
  extractFields depth (namingTenant others s)
  = extractFields depth (namingTenant others s').
Proof.
  intros H. unfold extractFields, namingTenant, getProperty.
  rewrite !ownProperty_last.
  rewrite !ownProperty_last_other by reflexivity.
  cbn [mbind option_bind stringOrEmpty ToString]. now rewrite H.
Qed.

(** The handler reads the payload through [extractFields] only. *)
Lemma handle_payload_ext stealth env cond req (p1 p2 : json) w :
  extractFields (nesting_limit env) p1 = extractFields (nesting_limit env) p2 ->
  handle stealth env cond (withPayload req p1) w
  = handle stealth env cond (withPayload req p2) w.
Proof.
  intros H. unfold handle, withPayload, getRequestOrigin.
  cbn [method header_origin body]. rewrite H.
  destruct (extractFields (nesting_limit env) p2); reflexivity.
Qed.

(** ** The pattern of [isValidEmail] *)

Lemma allAtoms_app (a b : string) :
  allAtoms (a +:+ b) = allAtoms a && allAtoms b.
Proof.
  induction a as [|c r IH]; simpl; [reflexivity|].
  now rewrite IH, andb_assoc.
Qed.

Lemma dotThenMore_split (s : string) :
  dotThenMore s = true <->
  exists b c, s = b +:+ String "." c /\ c <> EmptyString.
Proof.
  induction s as [|x r IH]; simpl.
  - split; [discriminate|]. intros (b & c & H & _). destruct b; discriminate.
  - rewrite orb_true_iff, andb_true_iff, IH, Ascii.eqb_eq, truthy_true. split.
    + intros [[-> Hr] | (b & c & -> & Hc)].
      * exists EmptyString, r. now split.
      * exists (String x b), c. now split.
    + intros (b & c & H & Hc). destruct b as [|y b]; simpl in H.
      * injection H as -> ->. now left.
      * injection H as -> ->. right. now exists b, c.
Qed.

Lemma innerDot_split (s : string) :
  innerDot s = true <->
  exists b c, s = b +:+ String "." c /\ b <> EmptyString /\ c <> EmptyString.
Proof.
  destruct s as [|x r]; simpl.
  - split; [discriminate|]. intros (b & c & H & _). destruct b; discriminate.
  - rewrite dotThenMore_split. split.
    + intros (b & c & -> & Hc). exists (String x b), c.
      repeat split; [discriminate | exact Hc].
    + intros (b & c & H & Hb & Hc). destruct b as [|y b]; [congruence|].
      simpl in H. injection H as -> ->. now exists b, c.
Qed.

Lemma emailFrom_split (s : string) : forall seen : bool,
  emailFrom seen s = true <->
  exists a rest, s = a +:+ String "@" rest
                 /\ allAtoms a = true
                 /\ (seen = true \/ a <> EmptyString)
                 /\ allAtoms rest = true
                 /\ innerDot rest = true.
Proof.
  induction s as [|x r IH]; intros seen; simpl.
  - split; [discriminate|]. intros (a & rest & H & _). destruct a; discriminate.
  - destruct (Ascii.eqb x "@") eqn:Ex.
    + apply Ascii.eqb_eq in Ex. subst x.
      rewrite !andb_true_iff. split.
      * intros [[Hs Ha] Hd]. exists EmptyString, r. simpl. auto.
      * intros (a & rest & H & Ha & Hs & Hr & Hd).
        destruct a as [|y a]; simpl in H.
        -- injection H as Hr'; subst r. destruct Hs; [auto | congruence].
        -- injection H as Hy _; subst y. simpl in Ha. discriminate.
    + destruct (isWhiteSpace x) eqn:Wx.
      * split; [discriminate|]. intros (a & rest & H & Ha & _).
        destruct a as [|y a]; simpl in H.
        -- injection H as Hx _; subst x. now rewrite Ascii.eqb_refl in Ex.
        -- injection H as Hy _; subst y. simpl in Ha. unfold emailAtom in Ha.
           rewrite Wx in Ha. discriminate.
      * rewrite IH. split.
        -- intros (a & rest & -> & Ha & _ & Hr & Hd).
           exists (String x a), rest. simpl. unfold emailAtom.
           rewrite Wx, Ex, Ha. repeat split; auto; right; discriminate.
        -- intros (a & rest & H & Ha & _ & Hr & Hd).
           destruct a as [|y a]; simpl in H.
           ++ injection H as Hx _; subst x. now rewrite Ascii.eqb_refl in Ex.
           ++ injection H as Hy Hr'; subst y r. simpl in Ha.
              apply andb_true_iff in Ha as [_ Ha].
              exists a, rest. auto.
Qed.

(** [isValidEmail] accepts exactly the strings [a@b.c] with [a], [b] and
    [c] not empty and free of white space and of the at sign. *)
Lemma isValidEmail_pattern (email : string) :
  isValidEmail email = true <->
  exists a b c,
    email = a +:+ String "@" (b +:+ String "." c)
    /\ a <> EmptyString /\ b <> EmptyString /\ c <> EmptyString
    /\ allAtoms a = true /\ allAtoms b = true /\ allAtoms c = true.
Proof.
  unfold isValidEmail. rewrite emailFrom_split. split.
  - intros (a & rest & -> & Ha & Hne & Hr & Hd).
    apply innerDot_split in Hd as (b & c & -> & Hb & Hc).
    rewrite allAtoms_app in Hr. apply andb_true_iff in Hr as [Hrb Hrc].
    simpl in Hrc.
    exists a, b, c. destruct Hne as [Hne|Hne]; [discriminate|]. auto 10.
  - intros (a & b & c & -> & Ha & Hb & Hc & Aa & Ab & Ac).
    exists a, (b +:+ String "." c). repeat split; auto.
    + rewrite allAtoms_app, Ab. simpl. now rewrite Ac.
    + apply innerDot_split. now exists b, c.
Qed.

(** ** Contact type (C7) *)

(** C7, where the code misses it.  [normalizeContactType] sends an input
    into the closed enumeration [CONTACT_TYPES] whenever [String] converts
    it: the result is the trimmed, lower-cased text when that is a member
    and [general_query] otherwise, also for an absent or [null] input.
    [BUDGET_REQUEST] gives [budget_request], [nonsense] gives
    [general_query], the array of the one string [OTHER] gives [other].
    But it maps not every input: on an object with an own member
    [toString], on an array that holds one, and on arrays nested one
    level deeper than the stack carries, [String] throws and so does the
    function. *)
Theorem normalizeContactType_enumeration_or_exception :
  (forall (depth : nat) (value : option json),
     match stringOrEmpty depth value with
     | Some text =>
         let raw := toLowerCase (trim text) in
         exists r,
           normalizeContactType depth value = Some r
           /\ In r CONTACT_TYPES
           /\ ((In raw CONTACT_TYPES /\ r = raw)
               \/ (~ In raw CONTACT_TYPES /\ r = "general_query"))
     | None => normalizeContactType depth value = None
     end)
  /\ (forall depth : nat,
        stringOrEmpty depth None = Some EmptyString
        /\ stringOrEmpty depth (Some JNull) = Some EmptyString
        /\ (forall s, stringOrEmpty depth (Some (JStr s)) = Some s)
        /\ (forall text, stringOrEmpty depth (Some (JNum text)) = Some text)
        /\ stringOrEmpty depth (Some (JBool true)) = Some "true"
        /\ stringOrEmpty depth (Some (JBool false)) = Some "false"
        /\ (forall members,
              stringOrEmpty depth (Some (JObj members))
              = match ownProperty members "toString" with
                | Some _ => None
                | None => Some "[object Object]"
                end)
        /\ (forall a b,
              stringOrEmpty (S depth) (Some (JArr [JStr a; JNull; JStr b]))
              = Some (a +:+ "," +:+ "," +:+ b))
        /\ (forall s n, (n <= depth)%nat ->
              stringOrEmpty depth (Some (nested n (JStr s))) = Some s)
        /\ (forall v, stringOrEmpty depth (Some (nested (S depth) v)) = None))
  /\ (forall depth : nat,
        normalizeContactType depth None = Some "general_query"
        /\ normalizeContactType depth (Some JNull) = Some "general_query"
        /\ normalizeContactType depth (Some (JStr "BUDGET_REQUEST"))
           = Some "budget_request"
        /\ normalizeContactType depth (Some (JStr "  Commercial_Proposal "))
           = Some "commercial_proposal"
        /\ normalizeContactType depth (Some (JStr "Other")) = Some "other"
        /\ normalizeContactType depth (Some (JStr "nonsense")) = Some "general_query"
        /\ normalizeContactType depth (Some (JBool true)) = Some "general_query"
        /\ normalizeContactType depth (Some (JObj [("a", JNum "1")]))
           = Some "general_query"
        /\ normalizeContactType (S depth) (Some (JArr [JStr "OTHER"])) = Some "other"
        /\ normalizeContactType (S depth) (Some (JArr [JStr "other"; JStr "x"]))
           = Some "general_query")
  /\ (forall depth : nat,
        normalizeContactType depth (Some (JObj [("toString", JNum "1")])) = None
        /\ normalizeContactType (S depth)
             (Some (JArr [JStr "other"; JObj [("toString", JNum "1")]])) = None
        /\ normalizeContactType depth (Some (nested (S depth) (JStr "other")))
           = None).
Proof.
  assert (Hdeep : forall depth v, ToString depth (nested (S depth) v) = None).
  { induction depth as [|d IH]; intros v; [reflexivity|].
    change (nested (S (S d)) v) with (JArr [nested (S d) v]).
    cbn [ToString join]. change (nested (S d) v) with (JArr [nested d v]) at 1.
    cbv iota. now rewrite IH. }
  assert (Hfits : forall s n depth, (n <= depth)%nat ->
                    ToString depth (nested n (JStr s)) = Some s).
  { intros s. induction n as [|m IH]; intros depth Hn; [reflexivity|].
    destruct depth as [|d]; [lia|].
    cbn [nested ToString join].
    assert (E : match nested m (JStr s) with
                | JNull => Some EmptyString
                | _ => ToString d (nested m (JStr s))
                end = ToString d (nested m (JStr s))) by (destruct m; reflexivity).
    rewrite E, (IH d) by lia. reflexivity. }
  split; [|split; [|split]].
  - intros depth value. unfold normalizeContactType.
    destruct (stringOrEmpty depth value) as [text|]; [|reflexivity].
    cbn [mbind option_bind]. cbv zeta. set (raw := toLowerCase (trim text)).
    destruct (includes CONTACT_TYPES raw) eqn:E.
    + apply includes_In in E. exists raw. auto.
    + apply includes_not_In in E. exists "general_query".
      split; [reflexivity|]. split; [simpl; auto|]. auto.
  - intros depth. repeat split; try reflexivity.
    + intros s n Hn. destruct n; [reflexivity|]. now apply Hfits.
    + intros v. apply Hdeep.
  - intros depth. repeat split; reflexivity.
  - intros depth. repeat split; try reflexivity.
    unfold normalizeContactType.
    change (stringOrEmpty depth (Some (nested (S depth) (JStr "other"))))
      with (ToString depth (nested (S depth) (JStr "other"))).
    now rewrite Hdeep.
Qed.

(** ** Tenant identifiers (C8) *)

(** C8.  Normalization of the tenant identifier is idempotent, and an
    identifier and its trimmed lower-casing have one normal form; so the
    settings row looked up is the same, and a request handled with the one
    or with the other in its payload has the same outcome and leaves the
    same world.  ["  CfObras "] and ["cfobras"] both resolve under the key
    ["cfobras"]. *)
Theorem normalizeTenantSlug_resolution_insensitive :
  (forall s : string,
     normalizeTenantSlug (normalizeTenantSlug s) = normalizeTenantSlug s
     /\ normalizeTenantSlug (trim (toLowerCase s)) = normalizeTenantSlug s
     /\ (forall tenants : gmap string TenantSettings,
           tenants !! normalizeTenantSlug (trim (toLowerCase s))
           = tenants !! normalizeTenantSlug s)
     /\ (forall stealth env cond req others w,
           handle stealth env cond
                  (withPayload req (namingTenant others (trim (toLowerCase s)))) w
           = handle stealth env cond
                    (withPayload req (namingTenant others s)) w))
  /\ normalizeTenantSlug "  CfObras " = "cfobras"
  /\ normalizeTenantSlug "cfobras" = "cfobras".
Proof.
  split; [|split; reflexivity].
  intros s. split; [apply normalizeTenantSlug_idem|].
  split; [apply normalizeTenantSlug_normal_form|].
  split.
  - intros tenants. now rewrite normalizeTenantSlug_normal_form.
  - intros stealth env cond req others w.
    apply handle_payload_ext, extractFields_namingTenant.
    apply normalizeTenantSlug_normal_form.
Qed.

(** ** The rate limiter (C1) *)

Section RateLimiter.

Variable tenants : gmap string TenantSettings.
Variable now : Z.
Variable tenant : string.
Variable ip : Inet.
Variable limit : Z.

Local Abbreviation key := (tenant, ip, date_trunc_hour now).

(** One call, when the row exists or may be created and the new count
    fits the column: the count goes up by one and is compared. *)
Lemma check_and_increment_step (tbl : gmap CounterKey Z) :
  is_Some (tbl !! key) \/ is_Some (tenants !! tenant) ->
  countOf tbl key + 1 <= INT_MAX ->
  check_and_increment_rate_limit tenants now tenant ip limit tbl
  = Some (countOf tbl key + 1 <=? limit, <[key := countOf tbl key + 1]> tbl).
Proof.
  intros Hrow Hfit. unfold check_and_increment_rate_limit, countOf in *.
  cbv zeta. destruct (tbl !! key) as [c|] eqn:E; simpl in *.
  - destruct (INT_MAX <? c + 1) eqn:L; [apply Z.ltb_lt in L; lia | reflexivity].
  - destruct Hrow as [[x Hx]|[st Hst]]; [discriminate|].
    rewrite Hst. reflexivity.
Qed.

Lemma countOf_insert (tbl : gmap CounterKey Z) (c : Z) :
  countOf (<[key := c]> tbl) key = c.
Proof. unfold countOf. now rewrite lookup_insert_eq. Qed.

(** [n] calls in a row from any table. *)
Lemma attempts_from (n : nat) : forall tbl : gmap CounterKey Z,
  is_Some (tbl !! key) \/ is_Some (tenants !! tenant) ->
  countOf tbl key + Z.of_nat n <= INT_MAX ->
  attempts n tenants now tenant ip limit tbl
  = (List.map (fun i => Some (countOf tbl key + Z.of_nat (S i) <=? limit)) (seq 0 n),
     match n with
     | O => tbl
     | S _ => <[key := countOf tbl key + Z.of_nat n]> tbl
     end).
Proof.
  induction n as [|m IH]; intros tbl Hrow Hfit; [reflexivity|].
  cbn [attempts]. unfold attempt.
  rewrite check_and_increment_step by (trivial; lia).
  rewrite IH; cycle 1.
  { left. rewrite lookup_insert_eq. eauto. }
  { rewrite countOf_insert. lia. }
  rewrite countOf_insert. f_equal.
  - cbn [seq List.map].
    replace (countOf tbl key + Z.of_nat 1) with (countOf tbl key + 1) by lia.
    f_equal.
    rewrite <- seq_shift, List.map_map.
    apply List.map_ext. intros i.
    replace (countOf tbl key + 1 + Z.of_nat (S i))
      with (countOf tbl key + Z.of_nat (S (S i))) by lia.
    reflexivity.
  - destruct m as [|m'].
    + reflexivity.
    + rewrite insert_insert_eq.
      replace (countOf tbl key + 1 + Z.of_nat (S m'))
        with (countOf tbl key + Z.of_nat (S (S m'))) by lia.
      reflexivity.
Qed.

(** Of [n] attempts numbered from 1, those with a number up to the limit. *)
Lemma admittedCount_first (n : nat) :
  Z.of_nat (admittedCount
              (List.map (fun i => Some (Z.of_nat (S i) <=? limit)) (seq 0 n)))
  = Z.max 0 (Z.min (Z.of_nat n) limit).
Proof.
  unfold admittedCount. induction n as [|m IH]; [simpl; lia|].
  rewrite seq_S, List.map_app, List.filter_app, List.length_app.
  rewrite Nat2Z.inj_add, IH. cbn [List.map List.filter Nat.add].
  destruct (Z.of_nat (S m) <=? limit) eqn:L; cbn [List.length].
  - apply Z.leb_le in L. lia.
  - apply Z.leb_gt in L. lia.
Qed.

End RateLimiter.

Lemma date_trunc_hour_within (hour now : Z) :
  hour mod 3600 = 0 -> withinHour hour now -> date_trunc_hour now = hour.
Proof.
  intros Hh [Hlo Hhi]. unfold date_trunc_hour.
  apply Z.mod_divide in Hh; [|lia]. destruct Hh as [q ->].
  assert (E : now - q * 3600 = now mod 3600).
  { apply (Z.mod_unique_pos now 3600 q); lia. }
  lia.
Qed.

(** Attempts at clock values of one hour, from any table. *)
Lemma attemptsAt_from (tenants : gmap string TenantSettings) (tenant : string)
    (ip : Inet) (limit hour : Z) (nows : list Z) :
  hour mod 3600 = 0 ->
  Forall (withinHour hour) nows ->
  forall tbl : gmap CounterKey Z,
    is_Some (tbl !! (tenant, ip, hour)) \/ is_Some (tenants !! tenant) ->
    countOf tbl (tenant, ip, hour) + Z.of_nat (List.length nows) <= INT_MAX ->
    attemptsAt nows tenants tenant ip limit tbl
    = (List.map (fun i => Some (countOf tbl (tenant, ip, hour) + Z.of_nat (S i) <=? limit))
         (seq 0 (List.length nows)),
       match nows with
       | [] => tbl
       | _ :: _ =>
           <[(tenant, ip, hour)
             := countOf tbl (tenant, ip, hour) + Z.of_nat (List.length nows)]> tbl
       end).
Proof.
  intros Hh Hall. induction Hall as [|now later Hnow Hlater IH];
    intros tbl Hrow Hfit; [reflexivity|].
  cbn [attemptsAt List.length] in *. unfold attempt.
  pose proof (date_trunc_hour_within hour now Hh Hnow) as Hb.
  rewrite check_and_increment_step by (rewrite Hb; trivial; lia).
  rewrite Hb.
  assert (Hins : forall c : Z,
            countOf (<[(tenant, ip, hour) := c]> tbl) (tenant, ip, hour) = c).
  { intros c. unfold countOf. now rewrite lookup_insert_eq. }
  rewrite IH; cycle 1.
  { left. rewrite lookup_insert_eq. eauto. }
  { rewrite Hins. lia. }
  rewrite !Hins.
  f_equal.
  - cbn [seq List.map].
    replace (countOf tbl (tenant, ip, hour) + Z.of_nat 1)
      with (countOf tbl (tenant, ip, hour) + 1) by lia.
    f_equal.
    rewrite <- seq_shift, List.map_map.
    apply List.map_ext. intros i.
    replace (countOf tbl (tenant, ip, hour) + 1 + Z.of_nat (S i))
      with (countOf tbl (tenant, ip, hour) + Z.of_nat (S (S i))) by lia.
    reflexivity.
  - destruct later as [|now' later'].
    + reflexivity.
    + rewrite insert_insert_eq. cbn [List.length].
      replace (countOf tbl (tenant, ip, hour) + 1 + Z.of_nat (S (List.length later')))
        with (countOf tbl (tenant, ip, hour) + Z.of_nat (S (S (List.length later'))))
        by lia.
      reflexivity.
Qed.

(** C1.  A call of [check_and_increment_rate_limit] for a key raises the
    count of the key by exactly one, creating the row at 1, and returns
    whether the new count is within the limit; the count is kept when
    the answer is no.  The key is the tenant, the address and the hour of
    the clock: attempts made at any moments [nows] of the hour that
    starts at [hour] meet one counter.  So [n] such attempts on a key
    that had no row, for a registered tenant and with [n] in the range of
    the column, leave the count at exactly [n], the attempt number [i]
    (from 1) returns true exactly when [i <= limit], the number of
    attempts that return true is [min n limit] (0 for a limit below 0),
    and no other key changes. *)
Theorem rate_limiter_counts_every_attempt
    (tenants : gmap string TenantSettings) (tenant : string) (ip : Inet)
    (limit hour : Z) (st : TenantSettings) (nows : list Z)
    (tbl : gmap CounterKey Z) :
  tenants !! tenant = Some st ->
  hour mod 3600 = 0 ->
  Forall (withinHour hour) nows ->
  tbl !! (tenant, ip, hour) = None ->
  Z.of_nat (List.length nows) <= INT_MAX ->
  let key : CounterKey := (tenant, ip, hour) in
  let n := List.length nows in
  (forall (now : Z) (t : gmap CounterKey Z),
     withinHour hour now ->
     countOf t key + 1 <= INT_MAX ->
     check_and_increment_rate_limit tenants now tenant ip limit t
     = Some (countOf t key + 1 <=? limit, <[key := countOf t key + 1]> t))
  /\ (forall now : Z,
        withinHour hour now ->
        check_and_increment_rate_limit tenants now tenant ip limit tbl
        = Some (1 <=? limit, <[key := 1]> tbl))
  /\ let '(results, tbl') := attemptsAt nows tenants tenant ip limit tbl in
     countOf tbl' key = Z.of_nat n
     /\ tbl' !! key = match n with O => None | S _ => Some (Z.of_nat n) end
     /\ results = List.map (fun i => Some (Z.of_nat (S i) <=? limit)) (seq 0 n)
     /\ Z.of_nat (admittedCount results) = Z.max 0 (Z.min (Z.of_nat n) limit)
     /\ (0 <= limit -> Z.of_nat (admittedCount results) = Z.min (Z.of_nat n) limit)
     /\ forall k : CounterKey, k <> key -> tbl' !! k = tbl !! k.
Proof.
  intros Hst Hh Hall Hnone Hfit key n.
  assert (Hc : countOf tbl key = 0) by (unfold key, countOf; now rewrite Hnone).
  assert (Hstep : forall (now : Z) (t : gmap CounterKey Z),
            withinHour hour now ->
            countOf t key + 1 <= INT_MAX ->
            check_and_increment_rate_limit tenants now tenant ip limit t
            = Some (countOf t key + 1 <=? limit, <[key := countOf t key + 1]> t)).
  { intros now t Hnow Ht.
    pose proof (date_trunc_hour_within hour now Hh Hnow) as Hb.
    rewrite check_and_increment_step; rewrite Hb; [reflexivity | right; eauto | exact Ht]. }
  split; [exact Hstep|]. split.
  - intros now Hnow. rewrite (Hstep now tbl Hnow) by (rewrite Hc; unfold INT_MAX; lia).
    now rewrite Hc.
  - rewrite (attemptsAt_from tenants tenant ip limit hour nows Hh Hall)
      by (try (right; eauto); fold key; rewrite Hc; lia).
    fold key n. rewrite Hc. cbn [Z.add].
    split; [|split; [|split; [|split; [|split]]]].
    + unfold n. destruct nows; [exact Hc|].
      unfold countOf. now rewrite lookup_insert_eq.
    + unfold n. destruct nows; [exact Hnone | now rewrite lookup_insert_eq].
    + reflexivity.
    + apply admittedCount_first.
    + intros Hl. rewrite admittedCount_first. lia.
    + intros k Hk. destruct nows; [reflexivity|]. now rewrite lookup_insert_ne.
Qed.

(** ** The handler, step by step *)

Lemma handle_posted stealth env cond req w f :
  posted env req f ->
  handle stealth env cond req w = admission stealth env cond req f w.
Proof.
  intros (Hm & Hu & Hk & payload & Hb & Hf).
  unfold handle. now rewrite Hm, Hu, Hk, Hb, Hf.
Qed.

(** The fields a payload gives, read backwards: the eight members and
    the text each of them converts to. *)
Lemma extractFields_inv (depth : nat) (payload : json) (f : Fields) :
  extractFields depth payload = Some f ->
  exists vt vn ve vp vc vk vm vh tt tn te tp tc tm th,
    (getProperty payload "tenant" = Some vt
     /\ getProperty payload "name" = Some vn
     /\ getProperty payload "email" = Some ve
     /\ getProperty payload "phone" = Some vp
     /\ getProperty payload "company_name" = Some vc
     /\ getProperty payload "contact_type" = Some vk
     /\ getProperty payload "message" = Some vm
     /\ getProperty payload HONEYPOT_FIELD = Some vh)
    /\ (stringOrEmpty depth vt = Some tt
        /\ stringOrEmpty depth vn = Some tn
        /\ stringOrEmpty depth ve = Some te
        /\ stringOrEmpty depth vp = Some tp
        /\ stringOrEmpty depth vc = Some tc
        /\ stringOrEmpty depth vm = Some tm
        /\ stringOrEmpty depth vh = Some th)
    /\ normalizeContactType depth vk = Some (f_contact_type f)
    /\ f = {| f_tenant := normalizeTenantSlug tt;
              f_name := trim tn;
              f_email := toLowerCase (trim te);
              f_phone := trim tp;
              f_company_name := trim tc;
              f_contact_type := f_contact_type f;
              f_message := trim tm;
              f_honeypot := trim th |}.
Proof.
  intros H. unfold extractFields in H.
  destruct (getProperty payload "tenant") as [vt|] eqn:E1; [|discriminate H].
  cbn [mbind option_bind] in H.
  destruct (stringOrEmpty depth vt) as [tt|] eqn:E2; [|discriminate H].
  cbn [mbind option_bind] in H.
  destruct (getProperty payload "name") as [vn|] eqn:E3; [|discriminate H].
  cbn [mbind option_bind] in H.
  destruct (stringOrEmpty depth vn) as [tn|] eqn:E4; [|discriminate H].
  cbn [mbind option_bind] in H.
  destruct (getProperty payload "email") as [ve|] eqn:E5; [|discriminate H].
  cbn [mbind option_bind] in H.
  destruct (stringOrEmpty depth ve) as [te|] eqn:E6; [|discriminate H].
  cbn [mbind option_bind] in H.
  destruct (getProperty payload "phone") as [vp|] eqn:E7; [|discriminate H].
  cbn [mbind option_bind] in H.
  destruct (stringOrEmpty depth vp) as [tp|] eqn:E8; [|discriminate H].
  cbn [mbind option_bind] in H.
  destruct (getProperty payload "company_name") as [vc|] eqn:E9; [|discriminate H].
  cbn [mbind option_bind] in H.
  destruct (stringOrEmpty depth vc) as [tc|] eqn:E10; [|discriminate H].
  cbn [mbind option_bind] in H.
  destruct (getProperty payload "contact_type") as [vk|] eqn:E11; [|discriminate H].
  cbn [mbind option_bind] in H.
  destruct (normalizeContactType depth vk) as [kt|] eqn:E12; [|discriminate H].
  cbn [mbind option_bind] in H.
  destruct (getProperty payload "message") as [vm|] eqn:E13; [|discriminate H].
  cbn [mbind option_bind] in H.
  destruct (stringOrEmpty depth vm) as [tm|] eqn:E14; [|discriminate H].
  cbn [mbind option_bind] in H.
  destruct (getProperty payload HONEYPOT_FIELD) as [vh|] eqn:E15; [|discriminate H].
  cbn [mbind option_bind] in H.
  destruct (stringOrEmpty depth vh) as [th|] eqn:E16; [|discriminate H].
  cbn [mbind option_bind] in H.
  injection H as <-.
  exists vt, vn, ve, vp, vc, vk, vm, vh, tt, tn, te, tp, tc, tm, th.
  cbn [f_contact_type]. repeat split; reflexivity || assumption.
Qed.

Lemma extractFields_null (depth : nat) : extractFields depth JNull = None.
Proof. reflexivity. Qed.

Lemma admission_honeypot stealth env cond req f w :
  f_honeypot f <> EmptyString ->
  admission stealth env cond req f w
  = (Responded (okStealth (getRequestOrigin req)), w).
Proof.
  intros H. unfold admission. rewrite length_pos_truthy.
  apply truthy_true in H. now rewrite H.
Qed.



Lemma admission_resolved stealth env cond req f w st :
  f_honeypot f = EmptyString ->
  validate f = None ->
  settings_fault cond = false ->
  settings w !! f_tenant f = Some st ->
  enabled st = true ->
  admission stealth env cond req f w
  = let origin := getRequestOrigin req in
    let w1 := withCall (SelectSettings (f_tenant f)) w in
    if negb (truthy origin) || negb (includes (default [] (allowed_origins st)) origin)
    then (Responded (if stealth then okStealth origin
                     else jsonResponse 403 (BodyError "forbidden_origin")
                                       (corsHeaders origin)), w1)
    else
      let '(allowed, w2) :=
        rpcRateLimit env cond (f_tenant f) (getClientIp req)
                     (default 10 (rate_limit_per_hour st)) w1 in
      if negb allowed
      then (Responded (if stealth then okStealth origin
                       else jsonResponse 429 (BodyError "rate_limited")
                                         (corsHeaders origin)), w2)
      else (Responded (jsonResponse 200 BodyOk (corsHeaders origin)),
            insertSubmission cond
              (submissionRow f (getClientIp req) (getUserAgent req)) w2).
Proof.
  intros Hh Hv Hf Hs He. unfold admission, loadSettings.
  rewrite Hh, Hv, Hf, Hs, He. reflexivity.
Qed.

Lemma handle_passes stealth env cond req w f st tbl :
  passesChecks env cond req w f st tbl ->
  handle stealth env cond req w
  = (Responded (jsonResponse 200 BodyOk (corsHeaders (getRequestOrigin req))),
     admittedWorld cond req w f st tbl).
Proof.
  intros (Hp & Hh & Hv & Hf & Hs & He & Ho & Hi & Hr & p_ip & Hip & Hc).
  rewrite (handle_posted _ _ _ _ _ _ Hp).
  rewrite (admission_resolved _ _ _ _ _ _ _ Hh Hv Hf Hs He).
  cbv zeta. rewrite Ho, Hi. cbn [negb orb].
  unfold rpcRateLimit. rewrite Hr, Hip. cbn [settings counters withCall].
  rewrite Hc. reflexivity.
Qed.

Lemma passesChecks_withInsertOutcome env cond req w f st tbl o :
  passesChecks env cond req w f st tbl ->
  passesChecks env (withInsertOutcome o cond) req w f st tbl.
Proof. exact (fun H => H). Qed.

(** A successful call of the rate-limit function, read backwards. *)
Lemma check_and_increment_inv (tenants : gmap string TenantSettings) (now : Z)
    (tenant : string) (ip : Inet) (limit : Z) (tbl tbl' : gmap CounterKey Z)
    (b : bool) :
  check_and_increment_rate_limit tenants now tenant ip limit tbl = Some (b, tbl') ->
  let key : CounterKey := (tenant, ip, date_trunc_hour now) in
  tbl' = <[key := countOf tbl key + 1]> tbl
  /\ b = (countOf tbl key + 1 <=? limit)
  /\ countOf tbl key + 1 <= INT_MAX.
Proof.
  unfold check_and_increment_rate_limit, countOf. cbv zeta.
  destruct (tbl !! (tenant, ip, date_trunc_hour now)) as [c|]; simpl.
  - destruct (INT_MAX <? c + 1) eqn:L; [discriminate|].
    apply Z.ltb_ge in L. intros [= <- <-]. auto.
  - destruct (tenants !! tenant); [|discriminate].
    intros [= <- <-]. unfold INT_MAX. repeat split; lia.
Qed.

(** The hypotheses [posted] and [passesChecks] at a sample request, by
    evaluation. *)
Ltac posted_by_evaluation :=
  split; [reflexivity|]; split; [reflexivity|]; split; [reflexivity|];
  eexists; split; reflexivity.

Ltac passes_by_evaluation :=
  split; [posted_by_evaluation|];
  do 8 (split; [reflexivity|]);
  eexists; split; reflexivity.

(** ** The honeypot (C2) *)

(** C2, as the code has it.  A POST to a configured deployment whose
    payload has its eight members converted by [String] without an
    exception, the honeypot to a text that is not empty after [trim],
    gets the stealth answer at once: whatever the other fields, the
    tenant, the origin, the settings and the state of the backend, the
    world is left as it was, so nothing is queried, no counter moves, no
    row is stored and nothing is notified. *)
Theorem honeypot_rejects_before_other_checks
    stealth env cond req w (payload : json) (f : Fields) :
  method req = "POST" ->
  unset (SUPABASE_URL env) = false ->
  unset (SUPABASE_SERVICE_ROLE_KEY env) = false ->
  body req = BodyParsed payload ->
  extractFields (nesting_limit env) payload = Some f ->
  f_honeypot f <> EmptyString ->
  (exists hp text,
     getProperty payload HONEYPOT_FIELD = Some hp
     /\ stringOrEmpty (nesting_limit env) hp = Some text
     /\ f_honeypot f = trim text
     /\ trim text <> EmptyString)
  /\ handle stealth env cond req w
     = (Responded (okStealth (getRequestOrigin req)), w)
  /\ status (okStealth (getRequestOrigin req)) = 200
  /\ content (okStealth (getRequestOrigin req)) = BodyOk.
Proof.
  intros Hm Hu Hk Hb Hf Hne.
  split; [|split; [|split; reflexivity]].
  - destruct (extractFields_inv _ _ _ Hf)
      as (vt & vn & ve & vp & vc & vk & vm & vh & tt & tn & te & tp & tc & tm & th
          & (_ & _ & _ & _ & _ & _ & _ & Hh) & (_ & _ & _ & _ & _ & _ & Hth)
          & _ & Hrec).
    exists vh, th. rewrite Hrec in Hne |- *. cbn [f_honeypot] in *. auto.
  - rewrite (handle_posted stealth env cond req w f).
    + now apply admission_honeypot.
    + repeat split; trivial. exists payload. now split.
Qed.

Lemma honeypot_rejects_before_other_checks_witness :
  method (testRequest (JStr "https://bot.example")) = "POST"
  /\ unset (SUPABASE_URL deployed) = false
  /\ unset (SUPABASE_SERVICE_ROLE_KEY deployed) = false
  /\ (exists f,
        extractFields (nesting_limit deployed)
          (testPayload "cfobras" (JStr "https://bot.example")) = Some f
        /\ f_honeypot f = "https://bot.example")
  /\ handle true deployed healthy (testRequest (JStr "https://bot.example")) seeded
     = (Responded (okStealth "https://cf-obras-civiles-web-kplb.bolt.host"), seeded).
Proof.
  split; [reflexivity|]. split; [reflexivity|]. split; [reflexivity|].
  split; [eexists; split; reflexivity|].
  apply (honeypot_rejects_before_other_checks true deployed healthy
           (testRequest (JStr "https://bot.example")) seeded
           (testPayload "cfobras" (JStr "https://bot.example"))
           _ eq_refl eq_refl eq_refl eq_refl eq_refl).
  discriminate.
Defined.

(** C2 as stated fails in two ways.  A honeypot of one space is a value
    that is not empty, and the request is admitted, its row stored and
    its counter raised.  And with a honeypot filled in and a [name] that
    is an object with an own member [toString], the conversion of the
    name throws before the honeypot is looked at: the request gets no
    answer from the handler. *)
Lemma honeypot_whitespace_is_admitted :
  getProperty (testPayload "cfobras" (JStr " ")) HONEYPOT_FIELD
  = Some (Some (JStr " "))
  /\ " " <> EmptyString
  /\ fst (handler deployed healthy (testRequest (JStr " ")) seeded)
     = Responded (jsonResponse 200 BodyOk
                    (corsHeaders "https://cf-obras-civiles-web-kplb.bolt.host"))
  /\ submissions (snd (handler deployed healthy (testRequest (JStr " ")) seeded))
     = [testRow]
  /\ counters (snd (handler deployed healthy (testRequest (JStr " ")) seeded))
       !! ("cfobras", anyAddress, 1699999200)
     = Some 1
  /\ snd (handler deployed healthy (testRequest (JStr " ")) seeded) <> seeded
  /\ getProperty
       (JObj [("company_website", JStr "https://bot.example");
              ("name", JObj [("toString", JNum "1")])]) HONEYPOT_FIELD
     = Some (Some (JStr "https://bot.example"))
  /\ handler deployed healthy
       (postOf (Some "https://cf-obras-civiles-web-kplb.bolt.host")
          (BodyParsed (JObj [("company_website", JStr "https://bot.example");
                             ("name", JObj [("toString", JNum "1")])])))
       seeded
     = (Threw, seeded).
Proof.
  split; [reflexivity|]. split; [discriminate|].
  split; [vm_compute; reflexivity|]. split; [vm_compute; reflexivity|].
  split; [vm_compute; reflexivity|].
  split.
  { intros H. apply (f_equal submissions) in H. vm_compute in H. discriminate. }
  split; reflexivity.
Qed.

(** ** The stealth answer (C4) *)

(** Whenever the deployed handler answers a POST of a configured
    deployment, the answer is 200 with the body of success. *)
Lemma handler_answers_uniformly env cond req w (r : Response) :
  method req = "POST" ->
  unset (SUPABASE_URL env) = false ->
  unset (SUPABASE_SERVICE_ROLE_KEY env) = false ->
  fst (handler env cond req w) = Responded r ->
  status r = 200 /\ content r = BodyOk.
Proof.
  intros Hm Hu Hk. unfold handler, handle, STEALTH_MODE_ALWAYS_200.
  rewrite Hm, Hu, Hk. cbn [String.eqb Ascii.eqb Bool.eqb negb orb].
  destruct (body req) as [|payload]; [intros [= <-]; split; reflexivity|].
  destruct (extractFields (nesting_limit env) payload) as [f|]; [|discriminate].
  unfold admission.
  destruct (0 <? String.length (f_honeypot f))%nat;
    [intros [= <-]; split; reflexivity|].
  destruct (validate f); [intros [= <-]; split; reflexivity|].
  destruct (loadSettings cond (f_tenant f) w) as [[st|] w1];
    [|intros [= <-]; split; reflexivity].
  destruct (negb (enabled st)); [intros [= <-]; split; reflexivity|].
  destruct (negb (truthy (getRequestOrigin req))
            || negb (includes (default [] (allowed_origins st)) (getRequestOrigin req)));
    [intros [= <-]; split; reflexivity|].
  destruct (rpcRateLimit env cond (f_tenant f) (getClientIp req)
              (default 10 (rate_limit_per_hour st)) w1) as [allowed w2].
  destruct (negb allowed); intros [= <-]; split; reflexivity.
Qed.

(** C4, where the code misses it.  A body that parses to [null] is read
    like an object: the first property read throws, no branch of the
    handler catches it, and the request gets no answer from the handler,
    stealth or not. *)
Theorem null_payload_escapes_stealth stealth env cond req w :
  method req = "POST" ->
  unset (SUPABASE_URL env) = false ->
  unset (SUPABASE_SERVICE_ROLE_KEY env) = false ->
  body req = BodyParsed JNull ->
  handle stealth env cond req w = (Threw, w)
  /\ forall r : Response, fst (handle stealth env cond req w) <> Responded r.
Proof.
  intros Hm Hu Hk Hb.
  assert (H : handle stealth env cond req w = (Threw, w)).
  { unfold handle. now rewrite Hm, Hu, Hk, Hb. }
  split; [exact H|]. intros r. now rewrite H.
Qed.

Lemma null_payload_escapes_stealth_witness :
  method (postOf (Some "https://cf-obras-civiles-web-kplb.bolt.host") (BodyParsed JNull))
  = "POST"
  /\ unset (SUPABASE_URL deployed) = false
  /\ unset (SUPABASE_SERVICE_ROLE_KEY deployed) = false
  /\ handler deployed healthy
       (postOf (Some "https://cf-obras-civiles-web-kplb.bolt.host") (BodyParsed JNull))
       seeded
     = (Threw, seeded).
Proof.
  split; [reflexivity|]. split; [reflexivity|]. split; [reflexivity|].
  apply (null_payload_escapes_stealth STEALTH_MODE_ALWAYS_200 deployed healthy
           (postOf (Some "https://cf-obras-civiles-web-kplb.bolt.host")
                   (BodyParsed JNull)) seeded); reflexivity.
Defined.

(** ** Notification (C3) *)

Lemma notifications_withCall (c : Call) (w : World) :
  isWebhookPost c = false -> notifications (withCall c w) = notifications w.
Proof.
  intros H. unfold notifications, withCall. cbn [calls].
  rewrite List.filter_app. cbn [List.filter]. rewrite H. apply app_nil_r.
Qed.

Lemma notifications_loadSettings cond tenant w :
  notifications (snd (loadSettings cond tenant w)) = notifications w.
Proof.
  unfold loadSettings. destruct (settings_fault cond); cbn [snd];
    now apply notifications_withCall.
Qed.

Lemma notifications_rpcRateLimit env cond tenant ip lim w :
  notifications (snd (rpcRateLimit env cond tenant ip lim w)) = notifications w.
Proof.
  unfold rpcRateLimit. destruct (rpc_fault cond); cbn [snd];
    [now apply notifications_withCall|].
  destruct (inet_in env ip) as [p_ip|]; cbn [snd];
    [|now apply notifications_withCall].
  destruct (check_and_increment_rate_limit _ _ _ _ _ _) as [[a t]|]; cbn [snd];
    [|now apply notifications_withCall].
  unfold notifications, withCounters. cbn [calls].
  now apply notifications_withCall.
Qed.

Lemma notifications_insertSubmission cond row w :
  notifications (insertSubmission cond row w) = notifications w.
Proof.
  unfold insertSubmission.
  destruct (insert_outcome cond);
    unfold notifications, withSubmission, withLog; cbn [calls];
    now apply notifications_withCall.
Qed.

Lemma notifications_admission stealth env cond req f w :
  notifications (snd (admission stealth env cond req f w)) = notifications w.
Proof.
  unfold admission.
  destruct (0 <? String.length (f_honeypot f))%nat; [reflexivity|].
  destruct (validate f); [reflexivity|].
  pose proof (notifications_loadSettings cond (f_tenant f) w) as H1.
  destruct (loadSettings cond (f_tenant f) w) as [[st|] w1]; cbn [snd] in *;
    [|exact H1].
  destruct (negb (enabled st)); [exact H1|].
  destruct (negb (truthy (getRequestOrigin req))
            || negb (includes (default [] (allowed_origins st)) (getRequestOrigin req)));
    [exact H1|].
  pose proof (notifications_rpcRateLimit env cond (f_tenant f) (getClientIp req)
                (default 10 (rate_limit_per_hour st)) w1) as H2.
  destruct (rpcRateLimit env cond (f_tenant f) (getClientIp req)
              (default 10 (rate_limit_per_hour st)) w1) as [allowed w2].
  cbn [snd] in *.
  destruct (negb allowed); cbn [snd]; [congruence|].
  rewrite notifications_insertSubmission. congruence.
Qed.

(** C3, where the code misses it.  The handler makes no notification
    attempt at all: whatever the request, the calls it adds hold no POST
    to a webhook.  The request of the README, which passes every check,
    is answered 200 and its row is stored, and the three calls made are
    the settings query, the rate-limit call and the insert. *)
Theorem admitted_request_is_not_notified :
  (forall stealth env cond req w,
     notifications (snd (handle stealth env cond req w)) = notifications w)
  /\ passesChecks deployed healthy (testRequest (JStr EmptyString)) seeded
       testFields cfobras {[ ("cfobras", anyAddress, 1699999200) := 1 ]}
  /\ fst (handler deployed healthy (testRequest (JStr EmptyString)) seeded)
     = Responded (jsonResponse 200 BodyOk
                    (corsHeaders "https://cf-obras-civiles-web-kplb.bolt.host"))
  /\ submissions (snd (handler deployed healthy (testRequest (JStr EmptyString)) seeded))
     = [testRow]
  /\ calls (snd (handler deployed healthy (testRequest (JStr EmptyString)) seeded))
     = [SelectSettings "cfobras"; RpcRateLimit "cfobras" "0.0.0.0" 10;
        InsertSubmission testRow]
  /\ notifications (snd (handler deployed healthy (testRequest (JStr EmptyString)) seeded))
     = [].
Proof.
  split.
  - intros stealth env cond req w. unfold handle.
    destruct (String.eqb (method req) "OPTIONS"); [reflexivity|].
    destruct (negb (String.eqb (method req) "POST")); [reflexivity|].
    destruct (unset (SUPABASE_URL env) || unset (SUPABASE_SERVICE_ROLE_KEY env));
      [reflexivity|].
    destruct (body req) as [|payload]; [reflexivity|].
    destruct (extractFields (nesting_limit env) payload) as [f|]; [|reflexivity].
    apply notifications_admission.
  - split; [passes_by_evaluation|].
    repeat split; vm_compute; reflexivity.
Qed.

(** ** Tenant resolution (C5) *)



(** ** The calls and rows a request adds *)

Lemma calls_rpcRateLimit env cond tenant ip lim w :
  calls (snd (rpcRateLimit env cond tenant ip lim w))
  = (calls w ++ [RpcRateLimit tenant ip lim])%list.
Proof.
  unfold rpcRateLimit. destruct (rpc_fault cond); [reflexivity|].
  destruct (inet_in env ip) as [p_ip|]; [|reflexivity].
  destruct (check_and_increment_rate_limit _ _ _ _ _ _) as [[a t]|]; reflexivity.
Qed.

Lemma calls_insertSubmission cond row w :
  calls (insertSubmission cond row w) = (calls w ++ [InsertSubmission row])%list.
Proof. unfold insertSubmission. destruct (insert_outcome cond); reflexivity. Qed.

Lemma counters_insertSubmission cond row w :
  counters (insertSubmission cond row w) = counters w.
Proof. unfold insertSubmission. destruct (insert_outcome cond); reflexivity. Qed.




(** ** The origin check (C6) *)

(** C6.  For a request that reaches the origin check (fields valid,
    honeypot empty, tenant enabled), the handler goes on to the
    rate-limit call exactly when the origin is not empty and is equal, as
    a string, to a member of the allowed origins of the tenant.
    Otherwise, with an origin that is missing, empty or no member, it
    answers at once, with the stealth answer under stealth mode and with
    403 without, and only the settings query has been made. *)
Theorem origin_check_is_exact_membership stealth env cond req w f st :
  posted env req f ->
  f_honeypot f = EmptyString ->
  validate f = None ->
  settings_fault cond = false ->
  settings w !! f_tenant f = Some st ->
  enabled st = true ->
  let origin := getRequestOrigin req in
  let allowed := default [] (allowed_origins st) in
  let w' := snd (handle stealth env cond req w) in
  ((origin <> EmptyString /\ In origin allowed)
   <-> exists rest,
         calls w' = (calls w ++ SelectSettings (f_tenant f)
                       :: RpcRateLimit (f_tenant f) (getClientIp req)
                            (default 10 (rate_limit_per_hour st))
                       :: rest)%list)
  /\ (origin = EmptyString \/ ~ In origin allowed ->
      handle stealth env cond req w
      = (Responded (if stealth then okStealth origin
                    else jsonResponse 403 (BodyError "forbidden_origin")
                                      (corsHeaders origin)),
         withCall (SelectSettings (f_tenant f)) w))
  /\ (header_origin req = None -> origin = EmptyString)
  /\ (includes allowed origin = true <-> In origin allowed).
Proof.
  intros Hp Hh Hv Hf Hs He origin allowed w'.
  assert (Hrej : origin = EmptyString \/ ~ In origin allowed ->
                 handle stealth env cond req w
                 = (Responded (if stealth then okStealth origin
                               else jsonResponse 403 (BodyError "forbidden_origin")
                                                 (corsHeaders origin)),
                    withCall (SelectSettings (f_tenant f)) w)).
  { intros Hno. rewrite (handle_posted _ _ _ _ _ _ Hp).
    rewrite (admission_resolved _ _ _ _ _ _ _ Hh Hv Hf Hs He). cbv zeta.
    fold origin allowed.
    destruct Hno as [Hno|Hno].
    - apply truthy_false in Hno. now rewrite Hno.
    - apply includes_not_In in Hno. rewrite Hno.
      now rewrite orb_true_r. }
  split; [|split; [exact Hrej|split]].
  - split.
    + intros [Ho Hi]. apply truthy_true in Ho. apply includes_In in Hi.
      unfold w'. rewrite (handle_posted _ _ _ _ _ _ Hp).
      rewrite (admission_resolved _ _ _ _ _ _ _ Hh Hv Hf Hs He). cbv zeta.
      fold origin allowed. rewrite Ho, Hi. cbn [negb orb].
      pose proof (calls_rpcRateLimit env cond (f_tenant f) (getClientIp req)
                    (default 10 (rate_limit_per_hour st))
                    (withCall (SelectSettings (f_tenant f)) w)) as Hc.
      destruct (rpcRateLimit env cond (f_tenant f) (getClientIp req)
                  (default 10 (rate_limit_per_hour st))
                  (withCall (SelectSettings (f_tenant f)) w)) as [a w2].
      cbn [snd calls withCall] in Hc.
      destruct (negb a); cbn [snd].
      * exists []. rewrite Hc, <- app_assoc. reflexivity.
      * exists [InsertSubmission (submissionRow f (getClientIp req) (getUserAgent req))].
        rewrite calls_insertSubmission, Hc, <- !app_assoc. reflexivity.
    + intros [rest Hrest].
      destruct (truthy origin) eqn:Ho.
      * destruct (includes allowed origin) eqn:Hi.
        -- split; [now apply truthy_true | now apply includes_In].
        -- exfalso. unfold w' in Hrest.
           rewrite Hrej in Hrest by (right; now apply includes_not_In).
           cbn [snd calls withCall] in Hrest.
           apply app_inv_head in Hrest. discriminate.
      * exfalso. unfold w' in Hrest.
        rewrite Hrej in Hrest by (left; now apply truthy_false).
        cbn [snd calls withCall] in Hrest.
        apply app_inv_head in Hrest. discriminate.
  - unfold origin, getRequestOrigin. now intros ->.
  - apply includes_In.
Qed.

Lemma origin_check_is_exact_membership_witness :
  posted deployed (testRequest (JStr EmptyString)) testFields
  /\ settings seeded !! f_tenant testFields = Some cfobras
  /\ (exists rest,
        calls (snd (handle true deployed healthy (testRequest (JStr EmptyString)) seeded))
        = (calls seeded ++ SelectSettings "cfobras"
             :: RpcRateLimit "cfobras" "0.0.0.0" 10 :: rest)%list)
  /\ handle true deployed healthy
       (postOf (Some "https://evil.example")
               (BodyParsed (testPayload "cfobras" (JStr EmptyString)))) seeded
     = (Responded (okStealth "https://evil.example"),
        withCall (SelectSettings "cfobras") seeded).
Proof.
  assert (Hp : forall o, posted deployed
                 (postOf o (BodyParsed (testPayload "cfobras" (JStr EmptyString))))
                 testFields).
  { intros o. posted_by_evaluation. }
  split; [apply Hp|]. split; [reflexivity|]. split.
  - apply (origin_check_is_exact_membership true deployed healthy
             (testRequest (JStr EmptyString)) seeded testFields cfobras
             (Hp _) eq_refl eq_refl eq_refl eq_refl eq_refl).
    split; [discriminate | left; reflexivity].
  - apply (origin_check_is_exact_membership true deployed healthy
             (postOf (Some "https://evil.example")
                     (BodyParsed (testPayload "cfobras" (JStr EmptyString))))
             seeded testFields cfobras
             (Hp _) eq_refl eq_refl eq_refl eq_refl eq_refl).
    right. intros [H|[]]. discriminate.
Defined.

(** ** The audit row (C9) *)

(** C9.  For a request that passes every admission check the answer is
    200 with the body of success whatever the insert of the audit row
    does: stored, an error result, or an exception.  The counters and the
    calls made are the same in the three cases; the insert decides only
    whether the row is there and which line is logged. *)
Theorem audit_outcome_does_not_alter_response stealth env cond req w f st tbl :
  passesChecks env cond req w f st tbl ->
  forall o : InsertOutcome,
    let out := handle stealth env (withInsertOutcome o cond) req w in
    let row := submissionRow f (getClientIp req) (getUserAgent req) in
    fst out = Responded (jsonResponse 200 BodyOk (corsHeaders (getRequestOrigin req)))
    /\ status (jsonResponse 200 BodyOk (corsHeaders (getRequestOrigin req))) = 200
    /\ content (jsonResponse 200 BodyOk (corsHeaders (getRequestOrigin req))) = BodyOk
    /\ counters (snd out) = tbl
    /\ calls (snd out)
       = (calls w ++ [SelectSettings (f_tenant f);
                      RpcRateLimit (f_tenant f) (getClientIp req)
                                   (default 10 (rate_limit_per_hour st));
                      InsertSubmission row])%list
    /\ match o with
       | InsertStored =>
           submissions (snd out) = (submissions w ++ [row])%list
           /\ console (snd out) = console w
       | InsertError =>
           submissions (snd out) = submissions w
           /\ console (snd out) = (console w ++ [LogInsertFailed])%list
       | InsertThrows =>
           submissions (snd out) = submissions w
           /\ console (snd out) = (console w ++ [LogInsertThrew])%list
       end.
Proof.
  intros H o out row. unfold out.
  rewrite (handle_passes stealth env (withInsertOutcome o cond) req w f st tbl)
    by (now apply passesChecks_withInsertOutcome).
  cbn [fst snd]. unfold admittedWorld. fold row.
  split; [reflexivity|]. split; [reflexivity|]. split; [reflexivity|].
  split; [now rewrite counters_insertSubmission|].
  split.
  - rewrite calls_insertSubmission. cbn [calls withCounters withCall].
    now rewrite <- !app_assoc.
  - destruct o; split; reflexivity.
Qed.

Lemma audit_outcome_does_not_alter_response_witness :
  passesChecks deployed healthy (testRequest (JStr EmptyString)) seeded
    testFields cfobras {[ ("cfobras", anyAddress, 1699999200) := 1 ]}
  /\ fst (handle true deployed (withInsertOutcome InsertThrows healthy)
            (testRequest (JStr EmptyString)) seeded)
     = Responded (jsonResponse 200 BodyOk
                    (corsHeaders "https://cf-obras-civiles-web-kplb.bolt.host")).
Proof.
  assert (Hp : passesChecks deployed healthy (testRequest (JStr EmptyString)) seeded
                 testFields cfobras {[ ("cfobras", anyAddress, 1699999200) := 1 ]})
    by passes_by_evaluation.
  split; [exact Hp|].
  apply (audit_outcome_does_not_alter_response true deployed healthy
           (testRequest (JStr EmptyString)) seeded testFields cfobras _ Hp
           InsertThrows).
Defined.

(** ** The sentinel address and the optional columns (C10) *)



(** A run of twelve attempts against the seed tenant with its limit of
    ten, at twelve moments of one hour. *)
Lemma rate_limiter_counts_every_attempt_witness :
  ({[ "cfobras" := cfobras ]} : gmap string TenantSettings) !! "cfobras" = Some cfobras
  /\ 1699999200 mod 3600 = 0
  /\ Forall (withinHour 1699999200) twelveMoments
  /\ (∅ : gmap CounterKey Z) !! ("cfobras", anyAddress, 1699999200) = None
  /\ Z.of_nat (List.length twelveMoments) <= INT_MAX
  /\ countOf (snd (attemptsAt twelveMoments {[ "cfobras" := cfobras ]}
                     "cfobras" anyAddress 10 ∅))
       ("cfobras", anyAddress, 1699999200) = 12
  /\ Z.of_nat (admittedCount
                 (fst (attemptsAt twelveMoments {[ "cfobras" := cfobras ]}
                         "cfobras" anyAddress 10 ∅))) = 10.
Proof.
  assert (H1 : ({[ "cfobras" := cfobras ]} : gmap string TenantSettings) !! "cfobras"
               = Some cfobras) by reflexivity.
  assert (H2 : 1699999200 mod 3600 = 0) by reflexivity.
  assert (H3 : Forall (withinHour 1699999200) twelveMoments).
  { unfold twelveMoments, withinHour. repeat constructor; lia. }
  assert (H4 : (∅ : gmap CounterKey Z) !! ("cfobras", anyAddress, 1699999200) = None)
    by reflexivity.
  assert (H5 : Z.of_nat (List.length twelveMoments) <= INT_MAX)
    by (unfold INT_MAX; simpl; lia).
  split; [exact H1|]. split; [exact H2|]. split; [exact H3|].
  split; [exact H4|]. split; [exact H5|].
  pose proof (rate_limiter_counts_every_attempt {[ "cfobras" := cfobras ]}
                "cfobras" anyAddress 10 1699999200 cfobras twelveMoments ∅
                H1 H2 H3 H4 H5)
    as (_ & _ & H).
  destruct (attemptsAt twelveMoments {[ "cfobras" := cfobras ]}
              "cfobras" anyAddress 10 ∅) as [results tbl'].
  destruct H as (Hc & _ & _ & _ & Ha & _).
  split; [exact Hc | exact (Ha ltac:(lia))].
Defined.

(** ** The pipeline on the seed tenant *)

(** What [postToSlack] does when it is called: one POST to the webhook. *)
Lemma postToSlack_attempts_once (delivered : option bool) (url text : string)
    (w : World) :
  notifications (snd (postToSlack delivered url text w))
  = (notifications w ++ [WebhookPost url text])%list.
Proof.
  unfold postToSlack, notifications.
  destruct delivered as [[]|]; cbn [snd calls withCall withLog];
    rewrite List.filter_app; reflexivity.
Qed.

(** Eleven requests of one address within the hour, against the limit of
    ten of the seed tenant: all eleven are answered 200, ten rows are
    stored, and the counter stands at eleven. *)
Lemma eleventh_request_is_rejected_silently :
  let '(outs, w) :=
    serveTimes 11 deployed healthy (testRequest (JStr EmptyString)) seeded in
  outs = List.repeat
           (Responded (jsonResponse 200 BodyOk
              (corsHeaders "https://cf-obras-civiles-web-kplb.bolt.host"))) 11
  /\ submissions w = List.repeat testRow 10
  /\ counters w !! ("cfobras", anyAddress, 1699999200) = Some 11
  /\ List.length (calls w) = 32%nat.
Proof. vm_compute. repeat split; reflexivity. Qed.

(** * Further properties of the function *)

(** ** White space at the ends *)

Lemma append_cons (c : ascii) (a b : string) :
  String c a +:+ b = String c (a +:+ b).
Proof. reflexivity. Qed.

Lemma append_nil (b : string) : EmptyString +:+ b = b.
Proof. reflexivity. Qed.

Lemma trimStart_split (s : string) :
  exists l, s = l +:+ trimStart s
            /\ allWhite l = true
            /\ startsWithWhiteSpace (trimStart s) = false.
Proof.
  induction s as [|c r (l & Hl & Hw & Hs)]; simpl.
  - exists EmptyString. auto.
  - destruct (isWhiteSpace c) eqn:W.
    + exists (String c l). unfold allWhite in *. cbn [allChars].
      rewrite W, Hw, append_cons, <- Hl. auto.
    + exists EmptyString. simpl. rewrite W. auto.
Qed.

Lemma trimEnd_split (s : string) :
  exists r, s = trimEnd s +:+ r
            /\ allWhite r = true
            /\ endsWithWhiteSpace (trimEnd s) = false.
Proof.
  induction s as [|c t (r & Hr & Hw & He)]; simpl.
  - exists EmptyString. auto.
  - destruct (trimEnd t) as [|d u] eqn:E.
    + simpl in Hr. subst t. destruct (isWhiteSpace c) eqn:W.
      * exists (String c r). unfold allWhite in *. cbn [allChars].
        rewrite W, Hw. auto.
      * exists r. simpl. rewrite W. auto.
    + exists r. rewrite append_cons, <- Hr. auto.
Qed.

Lemma trimEnd_keeps_start (s : string) :
  startsWithWhiteSpace s = false -> startsWithWhiteSpace (trimEnd s) = false.
Proof.
  destruct s as [|c t]; simpl; [reflexivity|]. intros W.
  destruct (trimEnd t); [rewrite W|]; simpl; auto.
Qed.

Lemma allChars_app (p : ascii -> bool) (a b : string) :
  allChars p (a +:+ b) = allChars p a && allChars p b.
Proof.
  induction a as [|c r IH]; simpl; [reflexivity|].
  now rewrite IH, andb_assoc.
Qed.

Lemma trim_split (s : string) :
  exists l r, s = l +:+ trim s +:+ r
              /\ allWhite l = true /\ allWhite r = true
              /\ startsWithWhiteSpace (trim s) = false
              /\ endsWithWhiteSpace (trim s) = false.
Proof.
  unfold trim.
  destruct (trimStart_split s) as (l & Hl & Hlw & Hs).
  destruct (trimEnd_split (trimStart s)) as (r & Hr & Hrw & He).
  exists l, r. repeat split; auto.
  - now rewrite <- Hr.
  - now apply trimEnd_keeps_start.
Qed.

Lemma trim_allChars (p : ascii -> bool) (s : string) :
  allChars p s = true -> allChars p (trim s) = true.
Proof.
  destruct (trim_split s) as (l & r & H & _). intros Hp.
  rewrite H, !allChars_app, !andb_true_iff in Hp. tauto.
Qed.

Lemma trim_empty_allWhite (s : string) :
  trim s = EmptyString <-> allWhite s = true.
Proof.
  split.
  - intros E. destruct (trim_split s) as (l & r & H & Hl & Hr & _).
    rewrite E, append_nil in H. rewrite H. unfold allWhite in *.
    now rewrite allChars_app, Hl, Hr.
  - unfold trim, allWhite. induction s as [|c t IH]; simpl; [reflexivity|].
    intros H. apply andb_true_iff in H as [W H]. rewrite W. auto.
Qed.

(** ** The fields read from the payload *)

Lemma normalizeContactType_In (depth : nat) (value : option json) (r : string) :
  normalizeContactType depth value = Some r -> In r CONTACT_TYPES.
Proof.
  unfold normalizeContactType.
  destruct (stringOrEmpty depth value) as [text|]; [|discriminate].
  cbn [mbind option_bind]. cbv zeta.
  destruct (includes CONTACT_TYPES _) eqn:E; intros [= <-].
  - now apply includes_In.
  - simpl. auto.
Qed.

(** X1.  Whenever the payload is read, whatever it holds, the fields the
    handler works with are in normal form: every text field is its own
    trimming, the tenant and the email are also their own lower-casing,
    and the contact type is one of the four members of
    [CONTACT_TYPES]. *)
Theorem extracted_fields_are_normalised (depth : nat) (payload : json) (f : Fields) :
  extractFields depth payload = Some f ->
  trim (f_tenant f) = f_tenant f
  /\ toLowerCase (f_tenant f) = f_tenant f
  /\ normalizeTenantSlug (f_tenant f) = f_tenant f
  /\ trim (f_name f) = f_name f
  /\ trim (f_email f) = f_email f
  /\ toLowerCase (f_email f) = f_email f
  /\ trim (f_phone f) = f_phone f
  /\ trim (f_company_name f) = f_company_name f
  /\ trim (f_message f) = f_message f
  /\ trim (f_honeypot f) = f_honeypot f
  /\ In (f_contact_type f) CONTACT_TYPES
  /\ startsWithWhiteSpace (f_name f) = false
  /\ endsWithWhiteSpace (f_name f) = false
  /\ startsWithWhiteSpace (f_message f) = false
  /\ endsWithWhiteSpace (f_message f) = false.
Proof.
  intros H.
  destruct (extractFields_inv _ _ _ H)
    as (vt & vn & ve & vp & vc & vk & vm & vh & tt & tn & te & tp & tc & tm & th
        & _ & _ & Hk & Hrec).
  apply normalizeContactType_In in Hk. revert Hk. rewrite Hrec.
  cbn [f_tenant f_name f_email f_phone f_company_name f_contact_type
       f_message f_honeypot]. intros Hk.
  assert (Hends : forall s, startsWithWhiteSpace (trim s) = false
                            /\ endsWithWhiteSpace (trim s) = false).
  { intros s. destruct (trim_split s) as (l & r & _ & _ & _ & Hs & He). auto. }
  unfold normalizeTenantSlug.
  repeat split;
    rewrite <- ?toLowerCase_trim, ?toLowerCase_idem, ?trim_idem;
    try reflexivity; try exact Hk; apply Hends.
Qed.

Lemma extracted_fields_are_normalised_witness :
  extractFields 1000 (JObj [("tenant", JStr "  CfObras ");
                            ("email", JStr " Juan@Ejemplo.COM ")])
  = Some {| f_tenant := "cfobras"; f_name := EmptyString;
            f_email := "juan@ejemplo.com"; f_phone := EmptyString;
            f_company_name := EmptyString; f_contact_type := "general_query";
            f_message := EmptyString; f_honeypot := EmptyString |}
  /\ toLowerCase "juan@ejemplo.com" = "juan@ejemplo.com".
Proof.
  split; [reflexivity|].
  apply (extracted_fields_are_normalised 1000
           (JObj [("tenant", JStr "  CfObras ");
                  ("email", JStr " Juan@Ejemplo.COM ")]) _ eq_refl).
Defined.

(** X2.  A value made only of white space is read as a missing one: the
    name, the message, the phone, the company name and the honeypot are
    empty after extraction exactly when the text of the payload value
    holds nothing but white space (an absent or [null] value has the
    empty text). *)
Theorem blank_values_are_read_as_missing (depth : nat) (payload : json) (f : Fields)
    (vn vm vp vc vh : option json) :
  extractFields depth payload = Some f ->
  getProperty payload "name" = Some vn ->
  getProperty payload "message" = Some vm ->
  getProperty payload "phone" = Some vp ->
  getProperty payload "company_name" = Some vc ->
  getProperty payload HONEYPOT_FIELD = Some vh ->
  exists tn tm tp tc th,
    (stringOrEmpty depth vn = Some tn
     /\ stringOrEmpty depth vm = Some tm
     /\ stringOrEmpty depth vp = Some tp
     /\ stringOrEmpty depth vc = Some tc
     /\ stringOrEmpty depth vh = Some th)
    /\ (f_name f = EmptyString <-> allWhite tn = true)
    /\ (f_message f = EmptyString <-> allWhite tm = true)
    /\ (f_phone f = EmptyString <-> allWhite tp = true)
    /\ (f_company_name f = EmptyString <-> allWhite tc = true)
    /\ (f_honeypot f = EmptyString <-> allWhite th = true)
    /\ (allWhite tn = true ->
        validate f = Some "invalid_tenant" \/ validate f = Some "invalid_name").
Proof.
  intros H Hn Hm Hp Hc Hh.
  destruct (extractFields_inv _ _ _ H)
    as (vt & vn' & ve & vp' & vc' & vk & vm' & vh'
        & tt & tn & te & tp & tc & tm & th
        & (_ & Hn' & _ & Hp' & Hc' & _ & Hm' & Hh')
        & (_ & Htn & _ & Htp & Htc & Htm & Hth) & _ & Hrec).
  assert (vn' = vn) by congruence. assert (vm' = vm) by congruence.
  assert (vp' = vp) by congruence. assert (vc' = vc) by congruence.
  assert (vh' = vh) by congruence. subst vn' vm' vp' vc' vh'.
  exists tn, tm, tp, tc, th. split; [auto|].
  rewrite Hrec.
  cbn [f_name f_message f_phone f_company_name f_honeypot].
  repeat split; try apply trim_empty_allWhite.
  intros Hw. apply trim_empty_allWhite in Hw.
  unfold validate. cbn [f_tenant f_name]. rewrite Hw.
  destruct (negb (truthy _) || _); auto.
Qed.

Lemma blank_values_are_read_as_missing_witness :
  extractFields 1000 (testPayload "cfobras" (JStr "   "))
  = Some testFields
  /\ f_honeypot testFields = EmptyString
  /\ stringOrEmpty 1000 (Some (JStr "   ")) = Some "   "
  /\ allWhite "   " = true.
Proof.
  split; [reflexivity|]. split; [reflexivity|]. split; [reflexivity|].
  destruct (blank_values_are_read_as_missing 1000
              (testPayload "cfobras" (JStr "   ")) testFields
              (Some (JStr "Test User"))
              (Some (JStr "Este es un mensaje de prueba con nuevos campos"))
              None (Some (JStr "Test Corp")) (Some (JStr "   "))
              eq_refl eq_refl eq_refl eq_refl eq_refl eq_refl)
    as (tn & tm & tp & tc & th & (_ & _ & _ & _ & Hth) & _ & _ & _ & _ & Hhp & _).
  injection Hth as <-. now apply Hhp.
Defined.

(** ** The address of the client *)

Lemma beforeComma_notComma (s : string) :
  allChars notComma (beforeComma s) = true.
Proof.
  induction s as [|c r IH]; simpl; [reflexivity|].
  destruct (Ascii.eqb c ",") eqn:E; simpl; [reflexivity|].
  unfold notComma at 1. now rewrite E, IH.
Qed.

Lemma blankHeader_cases (h : option string) :
  blankHeader h \/ exists c r, h = Some (String c r).
Proof.
  destruct h as [[|c r]|]; unfold blankHeader; eauto.
Qed.

Lemma getClientIp_forwarded (req : Request) (x : string) :
  header_x_forwarded_for req = Some x -> x <> EmptyString ->
  getClientIp req = trim (beforeComma x).
Proof.
  intros Hx Hne. unfold getClientIp. rewrite Hx.
  destruct x; [congruence | reflexivity].
Qed.

Lemma getClientIp_real (req : Request) (y : string) :
  blankHeader (header_x_forwarded_for req) ->
  header_x_real_ip req = Some y -> y <> EmptyString ->
  getClientIp req = trim y.
Proof.
  intros Hb Hy Hne. unfold getClientIp. rewrite Hy.
  destruct y; [congruence|]. destruct Hb as [-> | ->]; reflexivity.
Qed.

Lemma getClientIp_sentinel (req : Request) :
  blankHeader (header_x_forwarded_for req) ->
  blankHeader (header_x_real_ip req) ->
  getClientIp req = "0.0.0.0".
Proof.
  unfold getClientIp. intros [-> | ->] [-> | ->]; reflexivity.
Qed.

(** X3.  [getClientIp] takes the first entry of a non-empty
    [x-forwarded-for] whatever [x-real-ip] says, then a non-empty
    [x-real-ip], and the sentinel only when both are absent or empty.
    Its result is always trimmed and, when taken from
    [x-forwarded-for], holds no comma.  It is the empty string, not the
    sentinel, exactly when the header it is taken from starts with an
    entry of white space only. *)
Theorem getClientIp_precedence_and_shape (req : Request) :
  (forall x, header_x_forwarded_for req = Some x -> x <> EmptyString ->
             getClientIp req = trim (beforeComma x)
             /\ allChars notComma (getClientIp req) = true)
  /\ (forall y, blankHeader (header_x_forwarded_for req) ->
                header_x_real_ip req = Some y -> y <> EmptyString ->
                getClientIp req = trim y)
  /\ (blankHeader (header_x_forwarded_for req) ->
      blankHeader (header_x_real_ip req) ->
      getClientIp req = "0.0.0.0")
  /\ trim (getClientIp req) = getClientIp req
  /\ (getClientIp req = EmptyString <->
      (exists x, header_x_forwarded_for req = Some x /\ x <> EmptyString
                 /\ allWhite (beforeComma x) = true)
      \/ (blankHeader (header_x_forwarded_for req)
          /\ exists y, header_x_real_ip req = Some y /\ y <> EmptyString
                       /\ allWhite y = true)).
Proof.
  split; [|split; [|split; [|split]]].
  - intros x Hx Hne. rewrite (getClientIp_forwarded req x Hx Hne).
    split; [reflexivity | apply trim_allChars, beforeComma_notComma].
  - apply getClientIp_real.
  - apply getClientIp_sentinel.
  - destruct (blankHeader_cases (header_x_forwarded_for req)) as [Hb | (c & r & Hx)].
    + destruct (blankHeader_cases (header_x_real_ip req)) as [Hb' | (d & t & Hy)].
      * now rewrite getClientIp_sentinel.
      * rewrite (getClientIp_real req _ Hb Hy) by discriminate. apply trim_idem.
    + rewrite (getClientIp_forwarded req _ Hx) by discriminate. apply trim_idem.
  - destruct (blankHeader_cases (header_x_forwarded_for req)) as [Hb | (c & r & Hx)].
    + destruct (blankHeader_cases (header_x_real_ip req)) as [Hb' | (d & t & Hy)].
      * rewrite getClientIp_sentinel by assumption. split; [discriminate|].
        intros [(x & Hx & Hne & _) | (_ & y & Hy & Hne & _)].
        -- destruct Hb as [Hb|Hb]; congruence.
        -- destruct Hb' as [Hb'|Hb']; congruence.
      * rewrite (getClientIp_real req _ Hb Hy) by discriminate.
        rewrite trim_empty_allWhite. split.
        -- intros Hw. right. split; [exact Hb|].
           exists (String d t). repeat split; [exact Hy | discriminate | exact Hw].
        -- intros [(x & Hx & Hne & _) | (_ & y & Hy' & _ & Hw)].
           ++ destruct Hb as [Hb|Hb]; congruence.
           ++ congruence.
    + rewrite (getClientIp_forwarded req _ Hx) by discriminate.
      rewrite trim_empty_allWhite. split.
      * intros Hw. left. exists (String c r).
        repeat split; [exact Hx | discriminate | exact Hw].
      * intros [(x & Hx' & _ & Hw) | ([Hb|Hb] & _)]; congruence.
Qed.

(** ** The contact type *)

Lemma formatContactType_members (ct : string) :
  In ct CONTACT_TYPES ->
  formatContactType ct
  = Some (if String.eqb ct "budget_request" then "Budget request"
          else if String.eqb ct "general_query" then "General query"
          else if String.eqb ct "commercial_proposal" then "Commercial proposal"
          else "Other").
Proof.
  simpl. intros [<- | [<- | [<- | [<- | []]]]]; reflexivity.
Qed.

(** X4.  [formatContactType] has a label exactly for the four members of
    [CONTACT_TYPES] and is [undefined] for every other string; different
    members have different labels; and since [normalizeContactType] ends
    in a member, the label of a normalized contact type is always
    there. *)
Theorem formatContactType_total_on_normalized :
  (forall ct, formatContactType ct = None <-> ~ In ct CONTACT_TYPES)
  /\ (forall ct ct', In ct CONTACT_TYPES ->
        formatContactType ct = formatContactType ct' -> ct = ct')
  /\ (forall (depth : nat) (value : option json) (ct : string),
        normalizeContactType depth value = Some ct ->
        exists label, formatContactType ct = Some label).
Proof.
  assert (Hnone : forall ct, formatContactType ct = None <-> ~ In ct CONTACT_TYPES).
  { intros ct. unfold formatContactType, CONTACT_TYPES. simpl.
    destruct (String.eqb ct "budget_request") eqn:E1;
      [apply String.eqb_eq in E1; split; [discriminate | intros H; exfalso; apply H; auto]|].
    destruct (String.eqb ct "general_query") eqn:E2;
      [apply String.eqb_eq in E2; split; [discriminate | intros H; exfalso; apply H; auto]|].
    destruct (String.eqb ct "commercial_proposal") eqn:E3;
      [apply String.eqb_eq in E3; split; [discriminate | intros H; exfalso; apply H; auto]|].
    destruct (String.eqb ct "other") eqn:E4;
      [apply String.eqb_eq in E4; split; [discriminate | intros H; exfalso; apply H; auto 6]|].
    apply String.eqb_neq in E1, E2, E3, E4.
    split; [|reflexivity]. intros _ [H | [H | [H | [H | []]]]]; congruence. }
  split; [exact Hnone|]. split.
  - intros ct ct' Hin Heq.
    destruct (formatContactType ct') as [l|] eqn:E'.
    + assert (Hin' : In ct' CONTACT_TYPES).
      { destruct (in_dec String.string_dec ct' CONTACT_TYPES) as [Hi|Hn]; [exact Hi|].
        apply Hnone in Hn. congruence. }
      rewrite (formatContactType_members _ Hin) in Heq.
      rewrite (formatContactType_members _ Hin') in E'.
      simpl in Hin, Hin'.
      destruct Hin as [<- | [<- | [<- | [<- | []]]]];
        destruct Hin' as [<- | [<- | [<- | [<- | []]]]];
        try reflexivity; simpl in Heq, E'; congruence.
    + rewrite (formatContactType_members _ Hin) in Heq. discriminate.
  - intros depth value ct Hct.
    rewrite (formatContactType_members _ (normalizeContactType_In _ _ _ Hct)).
    eauto.
Qed.

Lemma normalize_member (ct : string) :
  In ct CONTACT_TYPES -> toLowerCase (trim ct) = ct.
Proof.
  simpl. intros [<- | [<- | [<- | [<- | []]]]]; reflexivity.
Qed.

(** X5.  [normalizeContactType] is idempotent: a contact type that went
    through it once, sent again as a string, comes back unchanged; and a
    member of [CONTACT_TYPES] in any mix of cases and with white space
    around it is sent to that member. *)
Theorem normalizeContactType_idempotent :
  (forall (depth depth' : nat) (value : option json) (ct : string),
     normalizeContactType depth value = Some ct ->
     normalizeContactType depth' (Some (JStr ct)) = Some ct)
  /\ (forall (depth : nat) (s ct : string),
        In ct CONTACT_TYPES -> toLowerCase (trim s) = ct ->
        normalizeContactType depth (Some (JStr s)) = Some ct).
Proof.
  assert (H : forall (depth : nat) (s ct : string),
            In ct CONTACT_TYPES -> toLowerCase (trim s) = ct ->
            normalizeContactType depth (Some (JStr s)) = Some ct).
  { intros depth s ct Hin Hs. unfold normalizeContactType.
    cbn [stringOrEmpty ToString mbind option_bind]. cbv zeta.
    rewrite Hs. apply includes_In in Hin. now rewrite Hin. }
  split; [|exact H].
  intros depth depth' value ct Hct.
  apply normalizeContactType_In in Hct.
  apply H; [exact Hct | now apply normalize_member].
Qed.

(** ** The ways a request ends *)

Lemma originAllowed_dec (req : Request) (st : TenantSettings) :
  (negb (truthy (getRequestOrigin req))
   || negb (includes (default [] (allowed_origins st)) (getRequestOrigin req))
   = false <-> originAllowed req st)
  /\ (negb (truthy (getRequestOrigin req))
      || negb (includes (default [] (allowed_origins st)) (getRequestOrigin req))
      = true <-> ~ originAllowed req st).
Proof.
  unfold originAllowed.
  rewrite <- truthy_true, <- includes_In.
  destruct (truthy _), (includes _ _); simpl; split; split;
    intuition congruence.
Qed.

(** [admission] ends in one of the seven ways. *)
Lemma admission_ends stealth env cond req f w :
  exists why,
    ends stealth env cond req f w why
         (fst (admission stealth env cond req f w))
         (snd (admission stealth env cond req f w)).
Proof.
  unfold admission. rewrite length_pos_truthy.
  destruct (truthy (f_honeypot f)) eqn:Hh.
  { eexists. apply ends_honeypot. now apply truthy_true. }
  apply truthy_false in Hh.
  destruct (validate f) as [code|] eqn:Hv.
  { eexists. now apply ends_invalid. }
  unfold loadSettings.
  destruct (settings_fault cond) eqn:Hf.
  { eexists. apply ends_unresolved; auto. now left. }
  destruct (settings w !! f_tenant f) as [st|] eqn:Hs.
  2:{ eexists. apply ends_unresolved; auto. right. now left. }
  destruct (enabled st) eqn:He; cbn [negb].
  2:{ eexists. apply ends_unresolved; auto. right. right. eauto. }
  assert (Hr : reachesOriginCheck cond w f st) by (repeat split; assumption).
  destruct (negb (truthy (getRequestOrigin req)) || _) eqn:Ho.
  { eexists. apply (ends_forbidden _ _ _ _ _ _ st Hr). now apply originAllowed_dec. }
  apply originAllowed_dec in Ho.
  unfold rpcRateLimit. cbn [settings counters withCall].
  destruct (rpc_fault cond) eqn:Hp.
  { eexists. apply (ends_limiter_error _ _ _ _ _ _ st Hr Ho). now left. }
  destruct (inet_in env (getClientIp req)) as [p_ip|] eqn:Hi.
  2:{ eexists. apply (ends_limiter_error _ _ _ _ _ _ st Hr Ho). right. now left. }
  destruct (check_and_increment_rate_limit _ _ _ _ _ _) as [[[|] tbl]|] eqn:Hc;
    cbn [negb fst snd]; eexists.
  - now apply (ends_admitted _ _ _ _ _ _ st p_ip tbl).
  - now apply (ends_rate_limited _ _ _ _ _ _ st p_ip tbl).
  - apply (ends_limiter_error _ _ _ _ _ _ st Hr Ho). right. right. eauto.
Qed.

(** The handler settles in one of the ways of [settles]. *)
Lemma handle_settles stealth env cond req w :
  settles stealth env cond req w
          (fst (handle stealth env cond req w))
          (snd (handle stealth env cond req w)).
Proof.
  unfold handle.
  destruct (String.eqb (method req) "OPTIONS") eqn:Em.
  { apply settles_preflight. now apply String.eqb_eq. }
  apply String.eqb_neq in Em.
  destruct (String.eqb (method req) "POST") eqn:Ep; cbn [negb].
  2:{ apply settles_method; [exact Em | now apply String.eqb_neq]. }
  apply String.eqb_eq in Ep.
  destruct (unset (SUPABASE_URL env)) eqn:Eu; cbn [orb].
  { apply settles_misconfigured; auto. }
  destruct (unset (SUPABASE_SERVICE_ROLE_KEY env)) eqn:Ek.
  { apply settles_misconfigured; auto. }
  destruct (body req) as [|payload] eqn:Eb.
  { now apply settles_unparsable. }
  destruct (extractFields (nesting_limit env) payload) as [f|] eqn:Ef.
  - destruct (admission_ends stealth env cond req f w) as [why Hw].
    apply (settles_pipeline _ _ _ _ _ f why); [|exact Hw].
    repeat split; auto. eauto.
  - now apply (settles_throws _ _ _ _ _ payload).
Qed.

Lemma ends_functional stealth env cond req f w
    (why why' : Reason) (out out' : Outcome) (w1 w2 : World) :
  ends stealth env cond req f w why out w1 ->
  ends stealth env cond req f w why' out' w2 ->
  why = why' /\ out = out' /\ w1 = w2.
Proof.
  intros H1 H2. destruct H1; inversion H2; subst;
    repeat match goal with
    | H : reachesOriginCheck _ _ _ _ |- _ => destruct H as (? & ? & ? & ? & ?)
    | H : unresolved _ _ _ |- _ => destruct H as [?|[?|(? & ? & ?)]]
    end;
    try congruence; try tauto;
    repeat match goal with
    | Ha : settings ?w !! ?t = Some ?a, Hb : settings ?w !! ?t = Some ?b |- _ =>
        assert (a = b) by congruence; subst b; clear Hb
    end;
    repeat match goal with
    | Ha : validate ?g = Some ?a, Hb : validate ?g = Some ?b |- _ =>
        assert (a = b) by congruence; subst b; clear Hb
    end;
    repeat match goal with
    | H : _ \/ _ |- _ => destruct H
    | H : exists _, _ |- _ => destruct H as (? & ? & ?)
    end;
    try congruence;
    repeat match goal with
    | Ha : inet_in ?e ?t = Some ?a, Hb : inet_in ?e ?t = Some ?b |- _ =>
        assert (a = b) by congruence; subst b; clear Hb
    end;
    try congruence;
    repeat split; congruence.
Qed.

(** X6.  Every request whose fields are read ends for exactly one
    reason: honeypot, an invalid field, an unresolved tenant, a forbidden
    origin, an error of the rate-limit call, the rate limit, or
    admission.  The reason fixes the response and the world left, and no
    second reason fits the same request. *)
Theorem each_request_ends_for_one_reason stealth env cond req f w :
  exists why,
    ends stealth env cond req f w why
         (fst (admission stealth env cond req f w))
         (snd (admission stealth env cond req f w))
    /\ forall why' out' w',
         ends stealth env cond req f w why' out' w' ->
         why' = why
         /\ out' = fst (admission stealth env cond req f w)
         /\ w' = snd (admission stealth env cond req f w).
Proof.
  destruct (admission_ends stealth env cond req f w) as [why H].
  exists why. split; [exact H|].
  intros why' out' w' H'.
  destruct (ends_functional _ _ _ _ _ _ _ _ _ _ _ _ H H') as (-> & -> & ->).
  auto.
Qed.

(** ** What a request may do to the world *)

Lemma boundedEffects_refl (w : World) : boundedEffects w w.
Proof.
  unfold boundedEffects. repeat split; auto.
  exists []. split; [now rewrite app_nil_r | auto].
Qed.

Lemma boundedEffects_select (t : string) (w : World) :
  boundedEffects w (withCall (SelectSettings t) w).
Proof.
  unfold boundedEffects. cbn. repeat split; auto.
  exists [SelectSettings t]. split; [reflexivity | eauto].
Qed.

(** X7.  Whatever the request, the handler leaves the settings table as
    it was, adds to the calls a prefix of the sequence settings query,
    rate-limit call, insert (so never two of a kind and never an insert
    without the two before it), stores at most one row, logs at most one
    line, and raises at most one counter, by exactly one. *)
Theorem handler_effects_are_bounded stealth env cond req w :
  boundedEffects w (snd (handle stealth env cond req w)).
Proof.
  pose proof (handle_settles stealth env cond req w) as H.
  destruct (handle stealth env cond req w) as [out w']. cbn [fst snd] in *.
  inversion H as [| | | | | f why o x Hp He]; subst;
    try apply boundedEffects_refl.
  inversion He; subst;
    try apply boundedEffects_refl; try apply boundedEffects_select.
  - (* error of the rate-limit call *)
    unfold boundedEffects. cbn. repeat split; auto.
    eexists. split; [now rewrite <- app_assoc|]. cbn. eauto 10.
  - (* rate limited *)
    match goal with
    | Hc : check_and_increment_rate_limit _ _ _ _ _ _ = Some _ |- _ =>
        apply check_and_increment_inv in Hc; cbv zeta in Hc;
        destruct Hc as (-> & _ & _)
    end.
    unfold boundedEffects. cbn. repeat split; eauto.
    eexists. split; [now rewrite <- app_assoc|]. cbn. eauto 10.
  - (* admitted *)
    match goal with
    | Hc : check_and_increment_rate_limit _ _ _ _ _ _ = Some _ |- _ =>
        apply check_and_increment_inv in Hc; cbv zeta in Hc;
        destruct Hc as (-> & _ & _)
    end.
    unfold boundedEffects, admittedWorld, insertSubmission.
    destruct (insert_outcome cond); cbn; repeat split; eauto;
      (eexists; split; [now rewrite <- !app_assoc|]; cbn; eauto 10).
Qed.

(** ** The basic validation *)

Lemma bound_ok (s : string) (n : nat) :
  negb (truthy s) || (n <? String.length s)%nat = false
  <-> s <> EmptyString /\ (String.length s <= n)%nat.
Proof.
  rewrite orb_false_iff, negb_false_iff, truthy_true, Nat.ltb_ge. tauto.
Qed.

Lemma validate_None_iff (f : Fields) :
  validate f = None <->
  (f_tenant f <> EmptyString /\ (String.length (f_tenant f) <= 64)%nat)
  /\ (f_name f <> EmptyString /\ (String.length (f_name f) <= 120)%nat)
  /\ ((f_email f <> EmptyString /\ (String.length (f_email f) <= 180)%nat)
      /\ isValidEmail (f_email f) = true)
  /\ (String.length (f_phone f) <= 50)%nat
  /\ (String.length (f_company_name f) <= 160)%nat
  /\ (f_message f <> EmptyString /\ (String.length (f_message f) <= 4000)%nat).
Proof.
  unfold validate, MAX_NAME_LEN, MAX_EMAIL_LEN, MAX_PHONE_LEN,
    MAX_COMPANY_NAME_LEN, MAX_MESSAGE_LEN.
  rewrite <- !bound_ok, <- !Nat.ltb_ge.
  rewrite <- (negb_false_iff (isValidEmail (f_email f))).
  destruct (negb (truthy (f_tenant f)) || _);
    [split; [discriminate | intros H; decompose [and] H; discriminate]|].
  destruct (negb (truthy (f_name f)) || _);
    [split; [discriminate | intros H; decompose [and] H; discriminate]|].
  destruct (negb (truthy (f_email f)) || _); cbn [orb];
    [split; [discriminate | intros H; decompose [and] H; discriminate]|].
  destruct (negb (isValidEmail (f_email f)));
    [split; [discriminate | intros H; decompose [and] H; discriminate]|].
  destruct (50 <? String.length (f_phone f))%nat;
    [split; [discriminate | intros H; decompose [and] H; discriminate]|].
  destruct (160 <? String.length (f_company_name f))%nat;
    [split; [discriminate | intros H; decompose [and] H; discriminate]|].
  destruct (negb (truthy (f_message f)) || _);
    [split; [discriminate | intros H; decompose [and] H; discriminate]|].
  tauto.
Qed.

(** X8.  The basic validation passes exactly the fields within their
    bounds: tenant present and at most 64 code units, name present and at
    most 120, email present, at most 180 and of the shape of
    [isValidEmail], phone at most 50, company name at most 160, message
    present and at most 4000.  Otherwise it names one of six error codes,
    and a bad tenant is named before any other bad field. *)
Theorem validate_accepts_exactly_the_bounded_fields (f : Fields) :
  (validate f = None <->
   (f_tenant f <> EmptyString /\ (String.length (f_tenant f) <= 64)%nat)
   /\ (f_name f <> EmptyString /\ (String.length (f_name f) <= 120)%nat)
   /\ ((f_email f <> EmptyString /\ (String.length (f_email f) <= 180)%nat)
       /\ isValidEmail (f_email f) = true)
   /\ (String.length (f_phone f) <= 50)%nat
   /\ (String.length (f_company_name f) <= 160)%nat
   /\ (f_message f <> EmptyString /\ (String.length (f_message f) <= 4000)%nat))
  /\ (forall code, validate f = Some code ->
        In code ["invalid_tenant"; "invalid_name"; "invalid_email";
                 "invalid_phone"; "invalid_company_name"; "invalid_message"])
  /\ (validate f = Some "invalid_tenant" <->
      f_tenant f = EmptyString \/ (64 < String.length (f_tenant f))%nat).
Proof.
  split; [apply validate_None_iff|]. split.
  - intros code. unfold validate.
    repeat match goal with
    | |- context [if ?b then _ else _] => destruct b
    end; intros [= <-]; simpl; auto 10.
  - unfold validate.
    rewrite <- truthy_false, <- Nat.ltb_lt, <- (negb_true_iff (truthy _)),
      <- orb_true_iff.
    destruct (negb (truthy (f_tenant f)) || _); [tauto|].
    split; [|discriminate].
    repeat match goal with
    | |- context [if ?b then _ else _] => destruct b
    end; discriminate.
Qed.

(** ** Rows are stored for admitted requests only *)

Lemma passesChecks_of_parts env cond req w f st tbl :
  posted env req f ->
  reachesOriginCheck cond w f st ->
  originAllowed req st ->
  rpc_fault cond = false ->
  forall p_ip : Inet,
    inet_in env (getClientIp req) = Some p_ip ->
    check_and_increment_rate_limit (settings w) (now cond) (f_tenant f)
      p_ip (default 10 (rate_limit_per_hour st)) (counters w)
    = Some (true, tbl) ->
    passesChecks env cond req w f st tbl.
Proof.
  intros Hp (Hh & Hv & Hf & Hs & He) (Ho & Hi) Hr p_ip Hcast Hc.
  unfold passesChecks.
  split; [exact Hp|]. do 5 (split; [assumption|]).
  split; [now apply truthy_true|]. split; [now apply includes_In|].
  split; [exact Hr|]. exists p_ip. now split.
Qed.

(** X9.  A row appears in [form_submissions] only for a request that
    passed every admission check and whose insert succeeded; the answer
    is then 200, and the row is the one built from the validated fields:
    its tenant has an enabled settings row, its contact type is a member
    of [CONTACT_TYPES], name, email and message are present and within
    their bounds, and the email has the shape [isValidEmail] accepts. *)
Theorem stored_row_passed_every_check stealth env cond req w :
  submissions (snd (handle stealth env cond req w)) <> submissions w ->
  exists f st tbl,
    let row := submissionRow f (getClientIp req) (getUserAgent req) in
    passesChecks env cond req w f st tbl
    /\ insert_outcome cond = InsertStored
    /\ fst (handle stealth env cond req w)
       = Responded (jsonResponse 200 BodyOk (corsHeaders (getRequestOrigin req)))
    /\ submissions (snd (handle stealth env cond req w))
       = (submissions w ++ [row])%list
    /\ settings w !! sub_tenant_slug row = Some st
    /\ enabled st = true
    /\ In (sub_contact_type row) CONTACT_TYPES
    /\ sub_name row <> EmptyString
    /\ (String.length (sub_name row) <= 120)%nat
    /\ isValidEmail (sub_email row) = true
    /\ (String.length (sub_email row) <= 180)%nat
    /\ sub_message row <> EmptyString
    /\ (String.length (sub_message row) <= 4000)%nat.
Proof.
  intros Hne.
  pose proof (handle_settles stealth env cond req w) as H.
  destruct (handle stealth env cond req w) as [out w']. cbn [fst snd] in *.
  inversion H as [| | | | | f why o x Hp He]; subst; try congruence.
  inversion He as [| | | | | |st p_ip tbl Hr Ho Hf Hcast Hc]; subst;
    try (exfalso; apply Hne; reflexivity).
  unfold admittedWorld, insertSubmission in Hne |- *.
  destruct (insert_outcome cond) eqn:Hi;
    try (exfalso; apply Hne; reflexivity).
  exists f, st, tbl. cbv zeta.
  pose proof Hr as (_ & Hv & _ & Hs & Hen).
  apply validate_None_iff in Hv.
  destruct Hv as (_ & (Hn1 & Hn2) & ((_ & He2) & He3) & _ & _ & (Hm1 & Hm2)).
  destruct Hp as (Hp1 & Hp2 & Hp3 & payload & Hb & Hx).
  destruct (extractFields_inv _ _ _ Hx)
    as (vt & vn & ve & vp & vc & vk & vm & vh & tt & tn & te & tp & tc & tm & th
        & _ & _ & Hk & _).
  split.
  { apply (passesChecks_of_parts env cond req w f st tbl) with (p_ip := p_ip); auto.
    repeat split; eauto. }
  repeat split; auto.
  cbn [sub_contact_type submissionRow].
  exact (normalizeContactType_In _ _ _ Hk).
Qed.

Lemma stored_row_passed_every_check_witness :
  submissions (snd (handle true deployed healthy (testRequest (JStr EmptyString)) seeded))
  <> submissions seeded
  /\ exists f st tbl,
       passesChecks deployed healthy (testRequest (JStr EmptyString)) seeded f st tbl
       /\ insert_outcome healthy = InsertStored.
Proof.
  assert (H : submissions (snd (handle true deployed healthy
                                  (testRequest (JStr EmptyString)) seeded))
              <> submissions seeded) by (vm_compute; discriminate).
  split; [exact H|].
  destruct (stored_row_passed_every_check true deployed healthy
              (testRequest (JStr EmptyString)) seeded H)
    as (f & st & tbl & Hp & Hi & _).
  exists f, st, tbl. split; [exact Hp | exact Hi].
Defined.

(** ** Over the limit, and a limiter out of reach *)

Lemma handle_reaches stealth env cond req w f st :
  posted env req f ->
  reachesOriginCheck cond w f st ->
  originAllowed req st ->
  handle stealth env cond req w
  = let origin := getRequestOrigin req in
    let '(allowed, w2) :=
      rpcRateLimit env cond (f_tenant f) (getClientIp req)
                   (default 10 (rate_limit_per_hour st))
                   (withCall (SelectSettings (f_tenant f)) w) in
    if negb allowed
    then (Responded (if stealth then okStealth origin
                     else jsonResponse 429 (BodyError "rate_limited")
                                       (corsHeaders origin)), w2)
    else (Responded (jsonResponse 200 BodyOk (corsHeaders origin)),
          insertSubmission cond
            (submissionRow f (getClientIp req) (getUserAgent req)) w2).
Proof.
  intros Hp (Hh & Hv & Hf & Hs & He) Ho.
  rewrite (handle_posted _ _ _ _ _ _ Hp).
  rewrite (admission_resolved _ _ _ _ _ _ _ Hh Hv Hf Hs He). cbv zeta.
  destruct (originAllowed_dec req st) as [Hd _]. apply Hd in Ho. now rewrite Ho.
Qed.

(** X10.  A request that reaches the rate limiter when the count of its
    key has already reached the limit is still counted: the counter goes
    up by one, but no row is inserted and the answer is the stealth one
    (429 [rate_limited] with the stealth switch off).  When the
    rate-limit call fails instead (the store out of reach, an address the
    database does not take as [inet], a count at the end of its range),
    the answer is the same and no counter moves: the handler fails
    closed. *)
Theorem over_limit_is_counted_but_not_stored (stealth : bool) env cond req w f st :
  posted env req f ->
  reachesOriginCheck cond w f st ->
  originAllowed req st ->
  let limit := default 10 (rate_limit_per_hour st) in
  let w1 := withCall (RpcRateLimit (f_tenant f) (getClientIp req) limit)
              (withCall (SelectSettings (f_tenant f)) w) in
  let rejected :=
    Responded (if stealth then okStealth (getRequestOrigin req)
               else jsonResponse 429 (BodyError "rate_limited")
                                 (corsHeaders (getRequestOrigin req))) in
  (forall p_ip : Inet,
     inet_in env (getClientIp req) = Some p_ip ->
     let key : CounterKey := (f_tenant f, p_ip, date_trunc_hour (now cond)) in
     (rpc_fault cond = false ->
      limit <= countOf (counters w) key ->
      countOf (counters w) key + 1 <= INT_MAX ->
      handle stealth env cond req w
      = (rejected,
         withCounters (<[key := countOf (counters w) key + 1]> (counters w)) w1))
     /\ (rpc_fault cond = false ->
         INT_MAX <= countOf (counters w) key ->
         is_Some (counters w !! key) ->
         handle stealth env cond req w = (rejected, w1)))
  /\ (rpc_fault cond = true ->
      handle stealth env cond req w = (rejected, w1))
  /\ (rpc_fault cond = false ->
      inet_in env (getClientIp req) = None ->
      handle stealth env cond req w = (rejected, w1)).
Proof.
  intros Hp Hr Ho limit w1 rejected.
  rewrite (handle_reaches _ _ _ _ _ _ _ Hp Hr Ho). cbv zeta.
  unfold rpcRateLimit. cbn [settings counters withCall].
  destruct Hr as (_ & _ & _ & Hs & _).
  split; [|split].
  - intros p_ip Hcast. rewrite Hcast. split.
    + intros Hf Hl Hfit. rewrite Hf.
      rewrite check_and_increment_step by (eauto; right; eauto).
      fold limit.
      destruct (countOf (counters w) _ + 1 <=? limit) eqn:L;
        [apply Z.leb_le in L; lia | reflexivity].
    + intros Hf Hmax [c Hc]. rewrite Hf.
      unfold check_and_increment_rate_limit. cbv zeta.
      unfold countOf in Hmax. rewrite Hc in Hmax |- *. cbn in Hmax.
      destruct (INT_MAX <? c + 1) eqn:L; [reflexivity|].
      apply Z.ltb_ge in L. lia.
  - intros Hf. now rewrite Hf.
  - intros Hf Hcast. now rewrite Hf, Hcast.
Qed.

Lemma over_limit_is_counted_but_not_stored_witness :
  posted deployed (testRequest (JStr EmptyString)) testFields
  /\ reachesOriginCheck healthy
       (snd (serveTimes 10 deployed healthy (testRequest (JStr EmptyString)) seeded))
       testFields cfobras
  /\ originAllowed (testRequest (JStr EmptyString)) cfobras
  /\ countOf
       (counters (snd (handle true deployed healthy (testRequest (JStr EmptyString))
                         (snd (serveTimes 10 deployed healthy
                                 (testRequest (JStr EmptyString)) seeded)))))
       ("cfobras", anyAddress, 1699999200) = 11
  /\ List.length
       (submissions (snd (handle true deployed healthy (testRequest (JStr EmptyString))
                            (snd (serveTimes 10 deployed healthy
                                    (testRequest (JStr EmptyString)) seeded)))))
     = 10%nat.
Proof.
  assert (Hp : posted deployed (testRequest (JStr EmptyString)) testFields).
  { posted_by_evaluation. }
  assert (Hr : reachesOriginCheck healthy
                 (snd (serveTimes 10 deployed healthy
                         (testRequest (JStr EmptyString)) seeded))
                 testFields cfobras).
  { repeat split; vm_compute; reflexivity. }
  assert (Ho : originAllowed (testRequest (JStr EmptyString)) cfobras).
  { split; [discriminate | left; reflexivity]. }
  split; [exact Hp|]. split; [exact Hr|]. split; [exact Ho|].
  destruct (over_limit_is_counted_but_not_stored true deployed healthy
              (testRequest (JStr EmptyString)) _ testFields cfobras Hp Hr Ho)
    as (H & _).
  destruct (H anyAddress eq_refl) as (H1 & _).
  rewrite H1.
  - split; vm_compute; reflexivity.
  - reflexivity.
  - vm_compute. discriminate.
  - vm_compute. discriminate.
Defined.

(** ** What the caller sees *)

Lemma okStealth_with_origin (origin : string) :
  origin <> EmptyString ->
  jsonResponse 200 BodyOk (corsHeaders origin) = okStealth origin.
Proof.
  intros H. apply truthy_true in H. unfold okStealth. now rewrite H.
Qed.

(** X11.  Under stealth mode the whole response to a POST, headers
    included, is a function of the [Origin] header alone: whenever the
    deployed handler answers, it answers [okStealth origin], for an
    admitted request as for a rejected one.  So the origin sent is echoed
    in [access-control-allow-origin] whether or not it is on the allow
    list of the tenant, and two POSTs with one origin get equal
    responses whatever their payloads and whatever the backend does. *)
Theorem stealth_response_depends_on_origin_only env cond req w (r : Response) :
  method req = "POST" ->
  unset (SUPABASE_URL env) = false ->
  unset (SUPABASE_SERVICE_ROLE_KEY env) = false ->
  fst (handler env cond req w) = Responded r ->
  r = okStealth (getRequestOrigin req)
  /\ headerOf (headers r) "access-control-allow-origin"
     = (if truthy (getRequestOrigin req) then Some (getRequestOrigin req) else None)
  /\ headerOf (headers r) "content-type" = Some "application/json; charset=utf-8"
  /\ forall env' cond' req' w' r',
       method req' = "POST" ->
       unset (SUPABASE_URL env') = false ->
       unset (SUPABASE_SERVICE_ROLE_KEY env') = false ->
       getRequestOrigin req' = getRequestOrigin req ->
       fst (handler env' cond' req' w') = Responded r' ->
       r' = r.
Proof.
  assert (Hmain : forall env cond req w r,
            method req = "POST" ->
            unset (SUPABASE_URL env) = false ->
            unset (SUPABASE_SERVICE_ROLE_KEY env) = false ->
            fst (handler env cond req w) = Responded r ->
            r = okStealth (getRequestOrigin req)).
  { clear. intros env cond req w r Hm Hu Hk Hr.
    pose proof (handle_settles STEALTH_MODE_ALWAYS_200 env cond req w) as H.
    unfold handler in Hr.
    destruct (handle STEALTH_MODE_ALWAYS_200 env cond req w) as [out w'].
    cbn [fst snd] in *. revert Hr.
    inversion H as [? | ? ? | ? Hmis | ? ? ? ? | ? ? ? ? | f why o x Hp He];
      subst; intros Hr.
    - congruence.
    - congruence.
    - destruct Hmis; congruence.
    - now injection Hr as <-.
    - discriminate.
    - revert Hr. inversion He as [| | | | | |st p_ip tbl Hre Ho]; subst; intros Hr;
        injection Hr as <-; try reflexivity.
      destruct Ho as [Ho _]. now rewrite okStealth_with_origin. }
  intros Hm Hu Hk Hr.
  pose proof (Hmain _ _ _ _ _ Hm Hu Hk Hr) as ->.
  split; [reflexivity|]. split; [|split].
  - unfold okStealth. destruct (truthy (getRequestOrigin req)); reflexivity.
  - reflexivity.
  - intros env' cond' req' w' r' Hm' Hu' Hk' Ho' Hr'.
    rewrite (Hmain _ _ _ _ _ Hm' Hu' Hk' Hr'). now rewrite Ho'.
Qed.

Lemma stealth_response_depends_on_origin_only_witness :
  method (testRequestFor "nobody") = "POST"
  /\ unset (SUPABASE_URL deployed) = false
  /\ unset (SUPABASE_SERVICE_ROLE_KEY deployed) = false
  /\ fst (handler deployed healthy (testRequestFor "nobody") seeded)
     = Responded (okStealth "https://cf-obras-civiles-web-kplb.bolt.host")
  /\ okStealth "https://cf-obras-civiles-web-kplb.bolt.host"
     = okStealth (getRequestOrigin (testRequestFor "nobody")).
Proof.
  assert (H : fst (handler deployed healthy (testRequestFor "nobody") seeded)
              = Responded (okStealth "https://cf-obras-civiles-web-kplb.bolt.host"))
    by (vm_compute; reflexivity).
  split; [reflexivity|]. split; [reflexivity|]. split; [reflexivity|].
  split; [exact H|].
  apply (stealth_response_depends_on_origin_only deployed healthy
           (testRequestFor "nobody") seeded _ eq_refl eq_refl eq_refl H).
Defined.

(** Induction on parsed values, with the elements of an array. *)
Lemma json_nested_ind (P : json -> Prop) :
  P JNull ->
  (forall b, P (JBool b)) ->
  (forall text, P (JNum text)) ->
  (forall s, P (JStr s)) ->
  (forall items, Forall P items -> P (JArr items)) ->
  (forall members, P (JObj members)) ->
  forall v, P v.
Proof.
  intros Hnull Hbool Hnum Hstr Harr Hobj.
  fix IH 1.
  intros [|b|text|s|items|members];
    [exact Hnull | apply Hbool | apply Hnum | apply Hstr | | apply Hobj].
  apply Harr. induction items as [|x r IHr]; constructor; [apply IH | exact IHr].
Qed.

Lemma join_cons (convert : json -> option string) (x : json) (r : list json) :
  join convert (x :: r)
  = match (match x with JNull => Some EmptyString | _ => convert x end) with
    | None => None
    | Some sx =>
        match r with
        | [] => Some sx
        | _ :: _ =>
            match join convert r with
            | None => None
            | Some sr => Some (sx +:+ "," +:+ sr)
            end
        end
    end.
Proof. reflexivity. Qed.

(** A join throws exactly when the conversion of an element does. *)
Lemma join_None_iff (convert : json -> option string) (l : list json) :
  join convert l = None
  <-> exists x, In x l /\ x <> JNull /\ convert x = None.
Proof.
  induction l as [|x r IH].
  - split; [discriminate | intros (x & [] & _)].
  - rewrite join_cons.
    assert (Hhead : match x with JNull => Some EmptyString | _ => convert x end = None
                    <-> x <> JNull /\ convert x = None).
    { destruct x; split; try discriminate; try tauto;
        try (intros H; split; [discriminate | exact H]). }
    destruct (match x with JNull => Some EmptyString | _ => convert x end)
      as [sx|] eqn:Ex.
    + assert (Hx : ~ (x <> JNull /\ convert x = None)).
      { intros H. apply Hhead in H. discriminate. }
      destruct r as [|y r'].
      * split; [discriminate|]. intros (z & [<-|[]] & Hz). tauto.
      * destruct (join convert (y :: r')) as [sr|] eqn:Er.
        -- split; [discriminate|].
           intros (z & [<-|Hin] & Hz); [tauto|].
           assert (He : exists x0, In x0 (y :: r') /\ x0 <> JNull /\ convert x0 = None)
             by eauto.
           apply IH in He. discriminate.
        -- split; [|reflexivity]. intros _.
           destruct IH as [IH _]. destruct (IH eq_refl) as (z & Hin & Hz).
           exists z. split; [now right | exact Hz].
    + split; [|reflexivity]. intros _. exists x. split; [now left|].
      now apply Hhead.
Qed.

(** [String] throws on exactly the values of [throwsOnString]. *)
Lemma ToString_None_iff (v : json) :
  forall depth : nat, ToString depth v = None <-> throwsOnString depth v.
Proof.
  induction v as [|b|text|s|items IH|members] using json_nested_ind; intros depth.
  - split; [discriminate | intros H; inversion H].
  - split; [destruct b; discriminate | intros H; inversion H].
  - split; [discriminate | intros H; inversion H].
  - split; [discriminate | intros H; inversion H].
  - destruct depth as [|d].
    { split; [intros _; constructor | reflexivity]. }
    cbn [ToString]. rewrite join_None_iff.
    rewrite List.Forall_forall in IH. split.
    + intros (x & Hin & _ & Hx). apply (throws_element d items x Hin).
      now apply IH.
    + intros H. inversion H as [| |d' items' x Hin Hx]; subst.
      exists x. split; [exact Hin|]. split.
      * intros ->. inversion Hx.
      * now apply IH.
  - cbn [ToString]. destruct (ownProperty members "toString") as [x|] eqn:E.
    + split; [intros _; now apply (throws_own_toString depth members x) | reflexivity].
    + split; [discriminate|]. intros H. inversion H; subst. congruence.
Qed.

Lemma stringOrEmpty_None_iff (depth : nat) (x : option json) :
  stringOrEmpty depth x = None
  <-> exists v, x = Some v /\ throwsOnString depth v.
Proof.
  destruct x as [v|]; cbn [stringOrEmpty].
  - destruct v; try (rewrite ToString_None_iff; split;
                     [intros H; eauto | intros (v' & [= <-] & H); exact H]).
    split; [discriminate | intros (v' & [= <-] & H); inversion H].
  - split; [discriminate | intros (v' & [=] & _)].
Qed.

Lemma normalizeContactType_None_iff (depth : nat) (x : option json) :
  normalizeContactType depth x = None <-> stringOrEmpty depth x = None.
Proof.
  unfold normalizeContactType.
  destruct (stringOrEmpty depth x); cbn [mbind option_bind]; split;
    congruence.
Qed.

(** The reads of the payload throw on [null] and on a payload with a
    member, among the eight, that [String] does not convert. *)
Lemma extractFields_None_iff (depth : nat) (payload : json) :
  extractFields depth payload = None
  <-> payload = JNull
      \/ exists k v, In k FIELD_NAMES
                     /\ getProperty payload k = Some (Some v)
                     /\ throwsOnString depth v.
Proof.
  assert (Hread : forall k,
            In k FIELD_NAMES ->
            payload <> JNull ->
            forall x, getProperty payload k = Some x ->
                      stringOrEmpty depth x = None ->
                      exists k v, In k FIELD_NAMES
                                  /\ getProperty payload k = Some (Some v)
                                  /\ throwsOnString depth v).
  { intros k Hk _ x Hx Hs. apply stringOrEmpty_None_iff in Hs as (v & -> & Hv).
    eauto. }
  split.
  - intros H. destruct payload as [|b|text|s|items|members]; [now left|..]; right;
      unfold extractFields in H;
      repeat match type of H with
      | (getProperty ?p ?k ≫= _) = None =>
          let x := fresh "x" in
          let E := fresh "E" in
          destruct (getProperty p k) as [x|] eqn:E; [|discriminate E];
          cbn [mbind option_bind] in H
      | (stringOrEmpty ?d ?x ≫= _) = None =>
          let E := fresh "E" in
          destruct (stringOrEmpty d x) eqn:E; cbn [mbind option_bind] in H;
          [|eapply Hread; [| discriminate | eassumption | exact E];
            unfold FIELD_NAMES; simpl; auto 10]
      | (normalizeContactType ?d ?x ≫= _) = None =>
          let E := fresh "E" in
          destruct (normalizeContactType d x) eqn:E; cbn [mbind option_bind] in H;
          [|apply normalizeContactType_None_iff in E;
            eapply Hread; [| discriminate | eassumption | exact E];
            unfold FIELD_NAMES; simpl; auto 10]
      end; discriminate H.
  - intros [-> | (k & v & Hin & Hget & Hv)]; [reflexivity|].
    assert (Hs : stringOrEmpty depth (Some v) = None).
    { apply stringOrEmpty_None_iff. eauto. }
    assert (Hn : normalizeContactType depth (Some v) = None).
    { now apply normalizeContactType_None_iff. }
    unfold extractFields. unfold FIELD_NAMES in Hin. simpl in Hin.
    destruct Hin as [<-|[<-|[<-|[<-|[<-|[<-|[<-|[<-|[]]]]]]]]];
      rewrite Hget;
      repeat match goal with
      | |- (Some _ ≫= _) = None => cbn [mbind option_bind]
      | |- (stringOrEmpty depth (Some v) ≫= _) = None => rewrite Hs; reflexivity
      | |- (normalizeContactType depth (Some v) ≫= _) = None => rewrite Hn; reflexivity
      | |- (?e ≫= _) = None => destruct e; cbn [mbind option_bind]; [|reflexivity]
      end.
Qed.

(** X12.  The handler lets an exception out exactly for a POST to a
    configured deployment whose body parses and whose reading throws: the
    body is [null], or one of the eight members read is a value that
    [String] does not convert, which is an object with an own member
    [toString], or an array that holds such a value or is nested deeper
    than the stack carries.  Every other request gets a response, and
    when the handler throws the world is left as it was. *)
Theorem handler_throws_exactly_when_a_read_throws stealth env cond req w :
  (fst (handle stealth env cond req w) = Threw
   <-> method req = "POST"
       /\ unset (SUPABASE_URL env) = false
       /\ unset (SUPABASE_SERVICE_ROLE_KEY env) = false
       /\ exists payload,
            body req = BodyParsed payload
            /\ (payload = JNull
                \/ exists k v, In k FIELD_NAMES
                               /\ getProperty payload k = Some (Some v)
                               /\ throwsOnString (nesting_limit env) v))
  /\ (fst (handle stealth env cond req w) = Threw ->
      snd (handle stealth env cond req w) = w)
  /\ (forall depth v, ToString depth v = None <-> throwsOnString depth v)
  /\ (forall depth s, ~ throwsOnString depth (JStr s))
  /\ (forall depth text, ~ throwsOnString depth (JNum text))
  /\ (forall depth b, ~ throwsOnString depth (JBool b))
  /\ (forall depth, ~ throwsOnString depth JNull)
  /\ (forall depth members,
        throwsOnString depth (JObj members)
        <-> ownProperty members "toString" <> None).
Proof.
  assert (Hback : method req = "POST"
                  /\ unset (SUPABASE_URL env) = false
                  /\ unset (SUPABASE_SERVICE_ROLE_KEY env) = false
                  /\ (exists payload,
                        body req = BodyParsed payload
                        /\ (payload = JNull
                            \/ exists k v, In k FIELD_NAMES
                                 /\ getProperty payload k = Some (Some v)
                                 /\ throwsOnString (nesting_limit env) v)) ->
                  handle stealth env cond req w = (Threw, w)).
  { intros (Hm & Hu & Hk & payload & Hb & Hp).
    apply extractFields_None_iff in Hp.
    unfold handle. now rewrite Hm, Hu, Hk, Hb, Hp. }
  assert (Hforth : fst (handle stealth env cond req w) = Threw ->
                   method req = "POST"
                   /\ unset (SUPABASE_URL env) = false
                   /\ unset (SUPABASE_SERVICE_ROLE_KEY env) = false
                   /\ (exists payload,
                         body req = BodyParsed payload
                         /\ (payload = JNull
                             \/ exists k v, In k FIELD_NAMES
                                  /\ getProperty payload k = Some (Some v)
                                  /\ throwsOnString (nesting_limit env) v))).
  { pose proof (handle_settles stealth env cond req w) as H.
    destruct (handle stealth env cond req w) as [out w']. cbn [fst snd] in *.
    intros Hr. revert Hr.
    inversion H as [? | ? ? | ? Hmis | ? ? ? ? | payload Hm Hu Hk Hb Hx
                    | f why o x Hp He];
      subst; intros Hr; try discriminate.
    - apply extractFields_None_iff in Hx. eauto 10.
    - revert Hr. inversion He; subst; discriminate. }
  split; [split|].
  - exact Hforth.
  - intros H. now rewrite (Hback H).
  - split; [intros H; now rewrite (Hback (Hforth H))|].
    split; [intros depth v; apply ToString_None_iff|].
    split; [intros depth s H; inversion H|].
    split; [intros depth text H; inversion H|].
    split; [intros depth b H; inversion H|].
    split; [intros depth H; inversion H|].
    intros depth members. split.
    + intros H. inversion H; subst. congruence.
    + destruct (ownProperty members "toString") as [x|] eqn:E; [|congruence].
      intros _. now apply (throws_own_toString depth members x).
Qed.

(** X13.  The statuses of the handler: 204 exactly for OPTIONS, 405
    exactly for a method that is neither OPTIONS nor POST, 500 exactly
    for a POST to a deployment that lacks its URL or its key, whatever
    the stealth switch; 400, 403 and 429 only with the stealth switch
    off; 200 exactly with the body of success.  A response of 204, 400,
    405 or 500 leaves the world untouched. *)
Theorem response_status_catalogue (stealth : bool) env cond req w (r : Response) :
  fst (handle stealth env cond req w) = Responded r ->
  In (status r) [200; 204; 400; 403; 405; 429; 500]
  /\ (stealth = true -> In (status r) [200; 204; 405; 500])
  /\ (status r = 204 <-> method req = "OPTIONS")
  /\ (status r = 405 <-> method req <> "OPTIONS" /\ method req <> "POST")
  /\ (status r = 500 <->
      method req = "POST"
      /\ (unset (SUPABASE_URL env) = true
          \/ unset (SUPABASE_SERVICE_ROLE_KEY env) = true))
  /\ (status r = 200 <-> content r = BodyOk)
  /\ (status r = 204 <-> content r = BodyEmpty)
  /\ (In (status r) [204; 400; 405; 500] ->
      snd (handle stealth env cond req w) = w).
Proof.
  pose proof (handle_settles stealth env cond req w) as H.
  destruct (handle stealth env cond req w) as [out w']. cbn [fst snd] in *.
  intros Hr. revert Hr.
  inversion H as [Hm | Hm1 Hm2 | Hm Hmis | Hm Hu Hk Hb | Hm Hu Hk Hb
                  | f why o x Hp He];
    subst; intros Hr; try discriminate.
  1-4: injection Hr as <-; destruct stealth; cbn;
    repeat split; intros; try discriminate; try congruence; auto 10;
    try (destruct Hmis; congruence);
    try (exfalso; intuition congruence).
  destruct Hp as (Hm & Hu & Hk & _).
  revert Hr. inversion He; subst; intros Hr; injection Hr as <-;
    destruct stealth; cbn;
    repeat split; intros; try discriminate; try congruence; auto 10;
    try (exfalso; intuition congruence).
Qed.

Lemma response_status_catalogue_witness :
  fst (handle false deployed healthy
         (postOf (Some "https://evil.example")
                 (BodyParsed (testPayload "cfobras" (JStr EmptyString)))) seeded)
  = Responded (jsonResponse 403 (BodyError "forbidden_origin")
                 (corsHeaders "https://evil.example"))
  /\ In (status (jsonResponse 403 (BodyError "forbidden_origin")
                   (corsHeaders "https://evil.example")))
        [200; 204; 400; 403; 405; 429; 500].
Proof.
  assert (H : fst (handle false deployed healthy
                     (postOf (Some "https://evil.example")
                        (BodyParsed (testPayload "cfobras" (JStr EmptyString))))
                     seeded)
              = Responded (jsonResponse 403 (BodyError "forbidden_origin")
                             (corsHeaders "https://evil.example")))
    by (vm_compute; reflexivity).
  split; [exact H|].
  apply (response_status_catalogue false deployed healthy _ seeded _ H).
Defined.

(** ** What of the payload is read *)

Lemma ownProperty_cons_other (k k' : string) (v : json) (m : list (string * json)) :
  String.eqb k k' = false ->
  ownProperty ((k, v) :: m) k' = ownProperty m k'.
Proof.
  intros H. simpl. rewrite H. now destruct (ownProperty m k').
Qed.

Lemma not_field_name (k : string) :
  ~ In k FIELD_NAMES ->
  Forall (fun name => String.eqb k name = false) FIELD_NAMES.
Proof.
  intros H. apply List.Forall_forall. intros name Hn.
  apply String.eqb_neq. intros ->. now apply H.
Qed.

(** X14.  The handler reads eight members of the payload and nothing
    else: a member of any other name, wherever it stands, changes neither
    the outcome nor the world; of two members of one name the later is
    read; and a payload that is a boolean, a number, a string or an array
    is handled like the empty object. *)
Theorem only_the_eight_members_are_read stealth env cond req w
    (members : list (string * json)) (k : string) (v : json) :
  (~ In k FIELD_NAMES ->
   handle stealth env cond (withPayload req (JObj (members ++ [(k, v)]))) w
   = handle stealth env cond (withPayload req (JObj members)) w
   /\ handle stealth env cond (withPayload req (JObj ((k, v) :: members))) w
      = handle stealth env cond (withPayload req (JObj members)) w)
  /\ (forall v', handle stealth env cond
                   (withPayload req (JObj ((k, v') :: members ++ [(k, v)]))) w
                 = handle stealth env cond
                     (withPayload req (JObj (members ++ [(k, v)]))) w)
  /\ (forall p, nonObject p ->
                handle stealth env cond (withPayload req p) w
                = handle stealth env cond (withPayload req (JObj [])) w).
Proof.
  split; [|split].
  - intros Hk. apply not_field_name in Hk.
    unfold FIELD_NAMES in Hk.
    repeat match goal with
    | H : Forall _ (_ :: _) |- _ => apply List.Forall_cons_iff in H as [? H]
    end.
    split; apply handle_payload_ext; unfold extractFields, getProperty.
    + now rewrite !ownProperty_last_other by assumption.
    + now rewrite !ownProperty_cons_other by assumption.
  - intros v'. apply handle_payload_ext.
    assert (Hown : forall name,
              ownProperty ((k, v') :: members ++ [(k, v)]) name
              = ownProperty (members ++ [(k, v)]) name).
    { intros name. simpl.
      destruct (ownProperty (members ++ [(k, v)]) name) eqn:E; [reflexivity|].
      destruct (String.eqb k name) eqn:Ek; [|reflexivity].
      apply String.eqb_eq in Ek. subst name.
      now rewrite ownProperty_last in E. }
    unfold extractFields, getProperty. now rewrite !Hown.
  - intros p Hp. apply handle_payload_ext.
    destruct p; try contradiction; reflexivity.
Qed.

(** ** Keys of the rate limiter do not touch each other *)

Lemma attempt_lookup_other (tenants : gmap string TenantSettings) (now : Z)
    (tenant : string) (ip : Inet) (limit : Z) (tbl : gmap CounterKey Z) (k : CounterKey) :
  k <> (tenant, ip, date_trunc_hour now) ->
  snd (attempt tenants now tenant ip limit tbl) !! k = tbl !! k.
Proof.
  intros Hk. unfold attempt, check_and_increment_rate_limit. cbv zeta.
  destruct (tbl !! (tenant, ip, date_trunc_hour now)) as [c|].
  - destruct (INT_MAX <? c + 1); cbn [snd]; [reflexivity|].
    now rewrite lookup_insert_ne.
  - destruct (tenants !! tenant); cbn [snd]; [|reflexivity].
    now rewrite lookup_insert_ne.
Qed.

Lemma attempts_lookup_other (n : nat) (tenants : gmap string TenantSettings)
    (now : Z) (tenant : string) (ip : Inet) (limit : Z) (k : CounterKey) :
  k <> (tenant, ip, date_trunc_hour now) ->
  forall tbl : gmap CounterKey Z,
    snd (attempts n tenants now tenant ip limit tbl) !! k = tbl !! k.
Proof.
  intros Hk. induction n as [|m IH]; intros tbl; [reflexivity|].
  cbn [attempts].
  pose proof (attempt_lookup_other tenants now tenant ip limit tbl k Hk) as H1.
  destruct (attempt tenants now tenant ip limit tbl) as [r tbl1].
  specialize (IH tbl1).
  destruct (attempts m tenants now tenant ip limit tbl1) as [rs tbl2].
  cbn [snd] in *. congruence.
Qed.

(** The answer and the new count depend on the row of the key only. *)
Lemma attempt_depends_on_row (tenants : gmap string TenantSettings) (now : Z)
    (tenant : string) (ip : Inet) (limit : Z) (tbl tbl' : gmap CounterKey Z) :
  tbl !! (tenant, ip, date_trunc_hour now) = tbl' !! (tenant, ip, date_trunc_hour now) ->
  fst (attempt tenants now tenant ip limit tbl)
  = fst (attempt tenants now tenant ip limit tbl')
  /\ snd (attempt tenants now tenant ip limit tbl) !! (tenant, ip, date_trunc_hour now)
     = snd (attempt tenants now tenant ip limit tbl') !! (tenant, ip, date_trunc_hour now).
Proof.
  intros H. unfold attempt, check_and_increment_rate_limit. cbv zeta.
  rewrite <- H.
  destruct (tbl !! (tenant, ip, date_trunc_hour now)) as [c|] eqn:E.
  - destruct (INT_MAX <? c + 1); cbn [fst snd];
      [split; [reflexivity | congruence]|].
    split; [reflexivity | now rewrite !lookup_insert_eq].
  - destruct (tenants !! tenant); cbn [fst snd];
      [|split; [reflexivity | congruence]].
    split; [reflexivity | now rewrite !lookup_insert_eq].
Qed.

(** X15.  Counters of different keys do not touch each other: any number
    of attempts on one key (tenant, address as a value of [inet], hour)
    leaves the row of every other key and the answer the limiter gives
    for it as they were, and two attempts on different keys give the same
    answers and the same table in either order. *)
Theorem rate_limit_keys_are_independent
    (tenants : gmap string TenantSettings) (now now' : Z)
    (tenant tenant' : string) (ip ip' : Inet) (limit limit' : Z)
    (tbl : gmap CounterKey Z) :
  (tenant', ip', date_trunc_hour now') <> (tenant, ip, date_trunc_hour now) ->
  (forall n : nat,
     snd (attempts n tenants now tenant ip limit tbl)
       !! (tenant', ip', date_trunc_hour now')
     = tbl !! (tenant', ip', date_trunc_hour now')
     /\ fst (attempt tenants now' tenant' ip' limit'
               (snd (attempts n tenants now tenant ip limit tbl)))
        = fst (attempt tenants now' tenant' ip' limit' tbl))
  /\ fst (attempt tenants now' tenant' ip' limit'
            (snd (attempt tenants now tenant ip limit tbl)))
     = fst (attempt tenants now' tenant' ip' limit' tbl)
  /\ fst (attempt tenants now tenant ip limit
            (snd (attempt tenants now' tenant' ip' limit' tbl)))
     = fst (attempt tenants now tenant ip limit tbl)
  /\ snd (attempt tenants now' tenant' ip' limit'
            (snd (attempt tenants now tenant ip limit tbl)))
     = snd (attempt tenants now tenant ip limit
              (snd (attempt tenants now' tenant' ip' limit' tbl))).
Proof.
  intros Hk.
  assert (Hk' : (tenant, ip, date_trunc_hour now)
                <> (tenant', ip', date_trunc_hour now')) by congruence.
  split; [|split; [|split]].
  - intros n.
    pose proof (attempts_lookup_other n tenants now tenant ip limit _ Hk tbl) as H.
    split; [exact H|]. now apply attempt_depends_on_row.
  - apply attempt_depends_on_row. now apply attempt_lookup_other.
  - apply attempt_depends_on_row. now apply attempt_lookup_other.
  - apply map_eq. intros k.
    destruct (decide (k = (tenant, ip, date_trunc_hour now))) as [->|Hn].
    + rewrite attempt_lookup_other by exact Hk'.
      apply attempt_depends_on_row. symmetry. now apply attempt_lookup_other.
    + rewrite (attempt_lookup_other tenants now tenant ip limit _ k) by exact Hn.
      destruct (decide (k = (tenant', ip', date_trunc_hour now'))) as [->|Hn'].
      * apply attempt_depends_on_row. now apply attempt_lookup_other.
      * rewrite !attempt_lookup_other by assumption. reflexivity.
Qed.

Lemma rate_limit_keys_are_independent_witness :
  ("other", anyAddress, date_trunc_hour 1700000000)
  <> ("cfobras", anyAddress, date_trunc_hour 1700000000)
  /\ fst (attempt {[ "cfobras" := cfobras; "other" := cfobras ]} 1700000000
            "other" anyAddress 1
            (snd (attempts 12 {[ "cfobras" := cfobras; "other" := cfobras ]}
                    1700000000 "cfobras" anyAddress 10 ∅)))
     = fst (attempt {[ "cfobras" := cfobras; "other" := cfobras ]} 1700000000
              "other" anyAddress 1 ∅).
Proof.
  assert (H : ("other", anyAddress, date_trunc_hour 1700000000)
              <> ("cfobras", anyAddress, date_trunc_hour 1700000000))
    by discriminate.
  split; [exact H|].
  apply (rate_limit_keys_are_independent
           {[ "cfobras" := cfobras; "other" := cfobras ]} 1700000000 1700000000
           "cfobras" "other" anyAddress anyAddress 10 1 ∅ H).
Defined.

(** ** The window of the rate limit *)

Lemma date_trunc_hour_eq (a : Z) : date_trunc_hour a = 3600 * (a / 3600).
Proof. unfold date_trunc_hour. pose proof (Z.div_mod a 3600). lia. Qed.

(** X16.  The window of the rate limit is the clock hour: the bucket of a
    time is the start of its hour, a multiple of 3600 not after the time
    and less than an hour before it; two times share a bucket exactly
    when they fall in the same hour, so the last second of an hour and
    the first of the next never do.  The quota starts afresh with the
    hour: whatever was counted in another hour, the first attempt of a
    key in an hour without a row for it is counted as 1 and answered by
    [1 <= limit]. *)
Theorem rate_limit_window_is_the_clock_hour :
  (forall now : Z,
     date_trunc_hour now <= now < date_trunc_hour now + 3600
     /\ date_trunc_hour now mod 3600 = 0
     /\ date_trunc_hour (date_trunc_hour now) = date_trunc_hour now)
  /\ (forall a b : Z,
        date_trunc_hour a = date_trunc_hour b <-> a / 3600 = b / 3600)
  /\ (forall now : Z,
        date_trunc_hour (date_trunc_hour now + 3599) = date_trunc_hour now
        /\ date_trunc_hour (date_trunc_hour now + 3600) <> date_trunc_hour now)
  /\ (forall (tenants : gmap string TenantSettings) (st : TenantSettings)
             (now now' : Z) (tenant : string) (ip : Inet) (limit limit' : Z)
             (tbl : gmap CounterKey Z) (n : nat),
        tenants !! tenant = Some st ->
        date_trunc_hour now' <> date_trunc_hour now ->
        tbl !! (tenant, ip, date_trunc_hour now') = None ->
        let tbl' := snd (attempts n tenants now tenant ip limit tbl) in
        fst (attempt tenants now' tenant ip limit' tbl') = Some (1 <=? limit')
        /\ snd (attempt tenants now' tenant ip limit' tbl')
             !! (tenant, ip, date_trunc_hour now') = Some 1).
Proof.
  split; [|split; [|split]].
  - intros now. unfold date_trunc_hour.
    pose proof (Z.mod_pos_bound now 3600 ltac:(lia)) as Hb.
    split; [lia|]. split.
    + rewrite Zminus_mod, Z.mod_mod, Z.sub_diag by lia. reflexivity.
    + rewrite Zminus_mod, Z.mod_mod, Z.sub_diag by lia.
      change (0 mod 3600) with 0. lia.
  - intros a b. rewrite !date_trunc_hour_eq. lia.
  - intros now. rewrite !date_trunc_hour_eq.
    split.
    + f_equal. symmetry. apply (Z.div_unique _ 3600 _ 3599); lia.
    + replace (3600 * (now / 3600) + 3600) with ((now / 3600 + 1) * 3600) by lia.
      rewrite Z.div_mul by lia. lia.
  - intros tenants st now now' tenant ip limit limit' tbl n Hst Hne Hnone tbl'.
    assert (Hrow : tbl' !! (tenant, ip, date_trunc_hour now') = None).
    { unfold tbl'. rewrite attempts_lookup_other; [exact Hnone | congruence]. }
    unfold attempt, check_and_increment_rate_limit. cbv zeta.
    rewrite Hrow, Hst. cbn [fst snd]. split; [reflexivity|].
    apply lookup_insert_eq.
Qed.

(** ** A run of requests of one client *)

Section Run.

Variable env : Env.
Variable req : Request.
Variable f : Fields.
Variable st : TenantSettings.
Variable hour : Z.
Variable address : Inet.

Hypothesis Hposted : posted env req f.
Hypothesis Hallowed : originAllowed req st.
Hypothesis Hhour : hour mod 3600 = 0.
Hypothesis Hcast : inet_in env (getClientIp req) = Some address.

Local Abbreviation key := (f_tenant f, address, hour).
Local Abbreviation limit := (default 10 (rate_limit_per_hour st)).
Local Abbreviation row := (submissionRow f (getClientIp req) (getUserAgent req)).




End Run.


(** ** The shape of an email *)

Lemma length_append (a b : string) :
  String.length (a +:+ b) = (String.length a + String.length b)%nat.
Proof.
  induction a as [|c r IH]; [reflexivity|].
  rewrite append_cons. cbn [String.length]. now rewrite IH.
Qed.

Lemma countChar_append (c : ascii) (a b : string) :
  countChar c (a +:+ b) = (countChar c a + countChar c b)%nat.
Proof.
  induction a as [|d r IH]; [reflexivity|].
  rewrite append_cons. cbn [countChar]. rewrite IH. lia.
Qed.

Lemma allAtoms_facts (s : string) :
  allAtoms s = true ->
  allChars notWhiteSpace s = true /\ countChar "@" s = 0%nat.
Proof.
  induction s as [|c r IH]; [auto|].
  cbn [allAtoms allChars countChar]. unfold emailAtom, notWhiteSpace at 1.
  rewrite !andb_true_iff, !negb_true_iff. intros [[Hw Ha] Hr].
  destruct (IH Hr) as [H1 H2]. rewrite Hw, Ha, H1, H2. auto.
Qed.

Lemma length_nonempty (s : string) :
  s <> EmptyString -> (1 <= String.length s)%nat.
Proof. destruct s; [congruence | cbn; lia]. Qed.

(** X18.  [isValidEmail] accepts exactly the strings [a@b.c] in which
    [a], [b] and [c] are not empty and hold neither white space nor an
    at sign ([b] and [c] may hold dots).  So an accepted email has at
    least five code units, no white space and exactly one at sign. *)
Theorem isValidEmail_accepts_local_at_domain_dot_tld (email : string) :
  (isValidEmail email = true <->
   exists a b c,
     email = a +:+ String "@" (b +:+ String "." c)
     /\ a <> EmptyString /\ b <> EmptyString /\ c <> EmptyString
     /\ allAtoms a = true /\ allAtoms b = true /\ allAtoms c = true)
  /\ (isValidEmail email = true ->
      (5 <= String.length email)%nat
      /\ allChars notWhiteSpace email = true
      /\ countChar "@" email = 1%nat).
Proof.
  split; [apply isValidEmail_pattern|].
  intros H. apply isValidEmail_pattern in H
    as (a & b & c & -> & Ha & Hb & Hc & Aa & Ab & Ac).
  apply length_nonempty in Ha, Hb, Hc.
  apply allAtoms_facts in Aa as [Wa Ca], Ab as [Wb Cb], Ac as [Wc Cc].
  split; [|split].
  - rewrite length_append. cbn [String.length]. rewrite length_append.
    cbn [String.length]. lia.
  - rewrite allChars_app. cbn [allChars]. rewrite allChars_app. cbn [allChars].
    now rewrite Wa, Wb, Wc.
  - rewrite countChar_append. cbn [countChar]. rewrite countChar_append.
    cbn [countChar]. rewrite Ca, Cb, Cc. reflexivity.
Qed.

(** ** One tenant at a time *)

(** X19.  A request touches the data of the tenant it names and of no
    other: the only counter that can change is the one of its normalized
    tenant slug, its address as the database reads it and the hour (none
    when the database does not take the address), and a row it adds
    carries that slug. *)
Theorem request_touches_only_its_tenant stealth env cond req w f :
  posted env req f ->
  (forall k : CounterKey,
     (forall p_ip : Inet,
        inet_in env (getClientIp req) = Some p_ip ->
        k <> (f_tenant f, p_ip, date_trunc_hour (now cond))) ->
     counters (snd (handle stealth env cond req w)) !! k = counters w !! k)
  /\ (inet_in env (getClientIp req) = None ->
      counters (snd (handle stealth env cond req w)) = counters w)
  /\ (forall (tenant : string) (ip : Inet) (hour : Z),
        tenant <> f_tenant f ->
        counters (snd (handle stealth env cond req w)) !! (tenant, ip, hour)
        = counters w !! (tenant, ip, hour))
  /\ (forall rows,
        submissions (snd (handle stealth env cond req w))
        = (submissions w ++ rows)%list ->
        Forall (fun r => sub_tenant_slug r = f_tenant f) rows).
Proof.
  intros Hp. rewrite (handle_posted _ _ _ _ _ _ Hp).
  assert (Hk : forall k : CounterKey,
            (forall p_ip : Inet,
               inet_in env (getClientIp req) = Some p_ip ->
               k <> (f_tenant f, p_ip, date_trunc_hour (now cond))) ->
            counters (snd (admission stealth env cond req f w)) !! k
            = counters w !! k).
  { destruct (admission_ends stealth env cond req f w) as [why H].
    destruct (admission stealth env cond req f w) as [out w']. cbn [fst snd] in *.
    intros k Hne.
    inversion H; subst; try reflexivity;
      match goal with
      | Hc : check_and_increment_rate_limit _ _ _ _ _ _ = Some _ |- _ =>
          apply check_and_increment_inv in Hc; cbv zeta in Hc;
          destruct Hc as (-> & _ & _)
      end.
    - cbn [counters withCounters]. rewrite lookup_insert_ne; [reflexivity|].
      intros E. now apply (Hne p_ip).
    - unfold admittedWorld. rewrite counters_insertSubmission.
      cbn [counters withCounters]. rewrite lookup_insert_ne; [reflexivity|].
      intros E. now apply (Hne p_ip). }
  split; [exact Hk|]. split; [|split].
  - intros Hnone. apply map_eq. intros k. apply Hk.
    intros p_ip Hsome. congruence.
  - intros tenant ip hour Hne. apply Hk. intros p_ip _. congruence.
  - destruct (admission_ends stealth env cond req f w) as [why H].
    destruct (admission stealth env cond req f w) as [out w']. cbn [fst snd] in *.
    intros rows Hrows.
    assert (Hnil : submissions w' = submissions w ->
                   Forall (fun r => sub_tenant_slug r = f_tenant f) rows).
    { intros E. rewrite E in Hrows.
      rewrite <- (List.app_nil_r (submissions w)) in Hrows at 1.
      apply app_inv_head in Hrows. subst rows. constructor. }
    inversion H; subst; try (apply Hnil; reflexivity).
    unfold admittedWorld, insertSubmission in Hrows, Hnil.
    destruct (insert_outcome cond); try (apply Hnil; reflexivity).
    cbn [submissions withSubmission withCall withCounters] in Hrows.
    apply app_inv_head in Hrows. subst rows.
    repeat constructor.
Qed.

Lemma request_touches_only_its_tenant_witness :
  posted deployed (testRequest (JStr EmptyString)) testFields
  /\ counters (snd (handle true deployed healthy (testRequest (JStr EmptyString)) seeded))
       !! ("other", anyAddress, 1699999200)
     = counters seeded !! ("other", anyAddress, 1699999200).
Proof.
  assert (Hp : posted deployed (testRequest (JStr EmptyString)) testFields).
  { posted_by_evaluation. }
  split; [exact Hp|].
  destruct (request_touches_only_its_tenant true deployed healthy
              (testRequest (JStr EmptyString)) seeded testFields Hp)
    as (_ & _ & H & _).
  apply H. discriminate.
Defined.
